(** * Time utilities of react-nano-timepicker

    A shallow embedding of [src/utils/time.ts] (parseTime, formatTime,
    timeToMinutes, generateTimeRange, isValidTime, filterTimesByInput,
    cleanTimeString) and of the logic of the component in [src/index.tsx]
    (the option lists, the error flag, the keyboard handler), with the
    properties the design document states and further ones read off the
    code.

    Conventions of the embedding.
    - A JavaScript string is a sequence of UTF-16 code units.  A [string]
      here holds one [ascii] per code unit, so the model covers the strings
      whose code units are below 256 (Basic Latin and Latin-1 Supplement).
      On that block [toLowerCase] and the class [\s] are the ones of
      ECMAScript: the block is closed under lowercasing.
    - A JavaScript number that holds an integer is a [Z].  The hours, the
      minutes and the interval of [generateTimeRange] are integers, as the
      interface of the design document declares them.
    - [null] is [None]. *)

From Stdlib Require Import ZArith List String Ascii Bool Lia ZifyBool.
From Stdlib Require Import DecimalString.
From Equations Require Import Equations.
From Equations.Prop Require Import Logic.
Import ListNotations.

Local Open Scope string_scope.
Local Open Scope Z_scope.

(** ** The built-ins of the language that the source calls *)

Module Js.

Definition code (c : ascii) : Z := Z.of_N (N_of_ascii c).

Definition in_range (lo hi : Z) (c : ascii) : bool :=
  (lo <=? code c) && (code c <=? hi).

(** [\d]: the ten ASCII digits. *)
Definition is_digit (c : ascii) : bool := in_range 48 57 c.

(** [\s]: TAB, LF, VT, FF, CR, SPACE and NO-BREAK SPACE are the members
    of the class below U+0100. *)
Definition is_space (c : ascii) : bool :=
  in_range 9 13 c || (code c =? 32) || (code c =? 160).

(** Upper-case letters below U+0100: A-Z, and U+00C0-U+00DE without the
    multiplication sign U+00D7.  Each lowercases to the code unit 32
    above it. *)
Definition is_upper (c : ascii) : bool :=
  in_range 65 90 c || (in_range 192 222 c && negb (code c =? 215)).

Definition lower_char (c : ascii) : ascii :=
  if is_upper c then ascii_of_N (Z.to_N (code c + 32)) else c.

(** [String.prototype.toLowerCase]. *)
Fixpoint toLowerCase (s : string) : string :=
  match s with
  | EmptyString => EmptyString
  | String c s' => String (lower_char c) (toLowerCase s')
  end.

(** [s.replace(/\s/g, '')]: every white-space code unit is dropped. *)
Fixpoint replace_ws (s : string) : string :=
  match s with
  | EmptyString => EmptyString
  | String c s' =>
      if is_space c then replace_ws s' else String c (replace_ws s')
  end.

(** [s.startsWith(p)], the test [includes] makes at each position. *)
Fixpoint startsWith (s p : string) {struct p} : bool :=
  match p, s with
  | EmptyString, _ => true
  | String _ _, EmptyString => false
  | String a p', String b s' => Ascii.eqb a b && startsWith s' p'
  end.

(** [String.prototype.includes]: [p] occurs in [s] at some position. *)
Fixpoint includes (s p : string) : bool :=
  startsWith s p ||
  match s with
  | EmptyString => false
  | String _ s' => includes s' p
  end.

Definition digit_value (c : ascii) : Z := code c - 48.

Fixpoint parse_digits (acc : Z) (s : string) : Z :=
  match s with
  | EmptyString => acc
  | String c s' =>
      if is_digit c then parse_digits (10 * acc + digit_value c) s'
      else acc
  end.

(** [parseInt(s, 10)] on a string that starts with a digit: the value of
    its longest prefix of digits.  Both call sites pass a capture of
    [\d{1,2}] or [\d{2}], so the NaN of a string without a leading digit
    never arises (see [re12_captures] and [re24_captures]); the model
    returns 0 there. *)
Definition parseInt (s : string) : Z := parse_digits 0 s.

(** [Number.prototype.toString] and template interpolation, on an
    integer: decimal digits, with a minus sign below zero. *)
Definition toString (n : Z) : string :=
  NilZero.string_of_int (Z.to_int n).

Fixpoint repeat_char (c : ascii) (n : nat) : string :=
  match n with
  | O => EmptyString
  | S n' => String c (repeat_char c n')
  end.

(** [s.padStart(targetLength, c)] with a one-character filler. *)
Definition padStart (s : string) (targetLength : nat) (c : ascii) : string :=
  repeat_char c (targetLength - String.length s) ++ s.

End Js.

(** ** Regular expressions

    The fragment of the pattern language that the two literals of
    [parseTime] use, with a backtracking matcher in continuation-passing
    style.  Captures are recorded in the order in which their groups
    close, which is the order of their opening parentheses when groups are
    not nested. *)

Module Regex.

Inductive regex : Type :=
| Digit : regex                          (* \d *)
| Chr : ascii -> regex                   (* a literal character *)
| Seq : regex -> regex -> regex          (* r1 r2 *)
| Alt : regex -> regex -> regex          (* r1|r2 *)
| Rep : nat -> nat -> regex -> regex     (* r{lo,hi}, greedy *)
| Group : regex -> regex.                (* (r) *)

Definition cont : Type := string -> list string -> option (list string).

(** The part of [s] consumed when [rest] is what remains of it. *)
Definition consumed (s rest : string) : string :=
  substring 0 (String.length s - String.length rest) s.

Fixpoint run (r : regex) (s : string) (caps : list string) (k : cont)
  {struct r} : option (list string) :=
  match r with
  | Digit =>
      match s with
      | String c s' => if Js.is_digit c then k s' caps else None
      | EmptyString => None
      end
  | Chr a =>
      match s with
      | String c s' => if Ascii.eqb c a then k s' caps else None
      | EmptyString => None
      end
  | Seq r1 r2 => run r1 s caps (fun s1 caps1 => run r2 s1 caps1 k)
  | Alt r1 r2 =>
      match run r1 s caps k with
      | Some res => Some res
      | None => run r2 s caps k
      end
  | Rep lo hi r1 =>
      (fix rep (lo hi : nat) (s : string) (caps : list string)
         {struct hi} : option (list string) :=
         match hi with
         | O => match lo with O => k s caps | S _ => None end
         | S hi' =>
             match run r1 s caps (rep (Nat.pred lo) hi') with
             | Some res => Some res
             | None => match lo with O => k s caps | S _ => None end
             end
         end) lo hi s caps
  | Group r1 =>
      run r1 s caps (fun s1 caps1 => k s1 (caps1 ++ [consumed s s1])%list)
  end.

(** [s.match(/^r$/)] without the [g] and [m] flags: the pattern is
    anchored at both ends, so it matches the whole of [s] or nothing.
    The result array holds the matched text at index 0 and the captures
    after it. *)
Definition exec (r : regex) (s : string) : option (list string) :=
  run r s []
    (fun rest caps =>
       match rest with
       | EmptyString => Some (s :: caps)
       | String _ _ => None
       end).

(** [m[i]]; an index out of range reads [undefined], which no call site
    of the source reaches (see [re12_captures] and [re24_captures]). *)
Definition group (m : list string) (i : nat) : string := nth i m "".

End Regex.

Import Regex.

(** ** src/utils/time.ts *)

Record TimeValue : Type := { hours : Z; minutes : Z }.

(** [/^(\d{1,2}):(\d{2})(am|pm)$/] without its anchors. *)
Definition re12 : regex :=
  Seq (Group (Rep 1 2 Digit))
    (Seq (Chr ":")
       (Seq (Group (Rep 2 2 Digit))
          (Group (Alt (Seq (Chr "a") (Chr "m")) (Seq (Chr "p") (Chr "m")))))).

(** [/^(\d{1,2}):(\d{2})$/] without its anchors. *)
Definition re24 : regex :=
  Seq (Group (Rep 1 2 Digit)) (Seq (Chr ":") (Group (Rep 2 2 Digit))).

Definition cleanTimeString (time : string) : string :=
  Js.replace_ws (Js.toLowerCase time).

Definition parseTime (timeStr : string) : option TimeValue :=
  let cleaned := Js.replace_ws (Js.toLowerCase timeStr) in
  match exec re12 cleaned with
  | Some match12 =>
      let hours0 := Js.parseInt (group match12 1) in
      let minutes := Js.parseInt (group match12 2) in
      let period := group match12 3 in
      if (hours0 <? 1) || (hours0 >? 12) || (minutes <? 0) || (minutes >? 59)
      then None
      else
        let hours :=
          if String.eqb period "am"
          then (if hours0 =? 12 then 0 else hours0)
          else (if hours0 =? 12 then 12 else hours0 + 12) in
        Some {| hours := hours; minutes := minutes |}
  | None =>
      match exec re24 cleaned with
      | Some match24 =>
          let hours := Js.parseInt (group match24 1) in
          let minutes := Js.parseInt (group match24 2) in
          if (hours <? 0) || (hours >? 23) || (minutes <? 0) || (minutes >? 59)
          then None
          else Some {| hours := hours; minutes := minutes |}
      | None => None
      end
  end.

Definition formatTime (time : TimeValue) : string :=
  let hours := time.(hours) in
  let minutes := time.(minutes) in
  let period := if hours >=? 12 then "pm" else "am" in
  let displayHours :=
    if hours =? 0 then 12 else if hours >? 12 then hours - 12 else hours in
  let displayMinutes := Js.padStart (Js.toString minutes) 2 "0" in
  Js.toString displayHours ++ ":" ++ displayMinutes ++ period.

Definition timeToMinutes (time : TimeValue) : Z :=
  time.(hours) * 60 + time.(minutes).

(** The variables that the [while] loop of [generateTimeRange] updates. *)
Record loop_state : Type := { currentMinutes : Z; times : list string }.

(** The loop test [currentMinutes <= endMinutes]. *)
Definition loop_cond (endMinutes : Z) (st : loop_state) : bool :=
  st.(currentMinutes) <=? endMinutes.

(** One run of the loop body.  [Math.floor (c / 60)] is the floor division
    [c / 60] and [%] is the truncating remainder [Z.rem]. *)
Definition loop_body (intervalMinutes : Z) (st : loop_state) : loop_state :=
  let hours := st.(currentMinutes) / 60 in
  let minutes := Z.rem st.(currentMinutes) 60 in
  {| currentMinutes := st.(currentMinutes) + intervalMinutes;
     times :=
       st.(times) ++ [formatTime {| hours := hours; minutes := minutes |}] |}.

(** The [while] loop.  The source reaches it only after the guard
    [intervalMinutes <= 0] has failed, and that is why it ends: each run of
    the body brings [currentMinutes] closer to [endMinutes]. *)
Equations? range_loop (endMinutes intervalMinutes : Z)
  (Hpos : intervalMinutes > 0) (st : loop_state) : loop_state
  by wf (Z.to_nat (endMinutes - st.(currentMinutes) + 1)) lt :=
  range_loop endMinutes intervalMinutes Hpos st
    with inspect (loop_cond endMinutes st) => {
    | exist _ true Hc :=
        range_loop endMinutes intervalMinutes Hpos
          (loop_body intervalMinutes st);
    | exist _ false _ := st }.
Proof.
  unfold loop_cond in Hc. apply Z.leb_le in Hc. cbn. lia.
Qed.

(** The guard [startMinutes > endMinutes || intervalMinutes <= 0] is
    written as its two tests in turn; the second one hands the loop the
    fact [intervalMinutes > 0]. *)
Definition generateTimeRange (startTime endTime : string)
  (intervalMinutes : Z) : list string :=
  match parseTime startTime, parseTime endTime with
  | Some start, Some end_ =>
      let startMinutes := timeToMinutes start in
      let endMinutes := timeToMinutes end_ in
      if startMinutes >? endMinutes then []
      else
        match Z_le_gt_dec intervalMinutes 0 with
        | left _ => []
        | right Hpos =>
            (range_loop endMinutes intervalMinutes Hpos
               {| currentMinutes := startMinutes; times := [] |}).(times)
        end
  | _, _ => []
  end.

Definition isValidTime (timeStr : string) : bool :=
  match parseTime timeStr with Some _ => true | None => false end.

Definition filterTimesByInput (times : list string) (input : string)
  : list string :=
  let cleaned := Js.replace_ws (Js.toLowerCase input) in
  if String.eqb cleaned "" then times
  else
    filter
      (fun time => Js.includes (Js.replace_ws (Js.toLowerCase time)) cleaned)
      times.

(** ** src/index.tsx: the logic of the TimePicker component

    The values the component derives from its props and state at each
    render, and its event handlers as transitions of the state of its three
    [useState] hooks.  A handler returns the state after its [set...] calls
    and the calls it makes besides.  The blur handler, which waits on a
    timer and asks the document where the focus is, and the effects that
    run after a render are not modelled. *)

Module TimePicker.

(** The props that the logic reads.  [value] is controlled by the parent:
    the component only reports changes through [onChange]. *)
Record props : Type := {
  value : string;
  minTime : string;
  maxTime : string;
  interval : Z;
  error : bool;
  disabled : bool
}.

(** [isOpen], [highlightedIndex] and [hasInteracted]. *)
Record state : Type := {
  isOpen : bool;
  highlightedIndex : Z;
  hasInteracted : bool
}.

(** The state of the first render. *)
Definition initial : state :=
  {| isOpen := false; highlightedIndex := -1; hasInteracted := false |}.

(** What a handler calls besides the state setters.  The argument of
    [onChange] is [None] when the source passes [undefined]. *)
Inductive call : Type :=
| preventDefault : call
| onChange : option string -> call
| onFocus : call
| focus : call.

Definition timeOptions (p : props) : list string :=
  generateTimeRange p.(minTime) p.(maxTime) p.(interval).

(** [!value] holds of the empty string only. *)
Definition filteredOptions (p : props) (st : state) : list string :=
  if String.eqb p.(value) "" || negb st.(hasInteracted) then timeOptions p
  else filterTimesByInput (timeOptions p) p.(value).

(** [error || (hasInteracted && value && !isValidTime(value))], as the
    truth value the rendering tests. *)
Definition showError (p : props) (st : state) : bool :=
  p.(error) ||
  (st.(hasInteracted) && negb (String.eqb p.(value) "") &&
   negb (isValidTime p.(value))).

(** The test that gives an option the class of the selected one. *)
Definition optionSelected (p : props) (time : string) : bool :=
  String.eqb (cleanTimeString p.(value)) (cleanTimeString time).

(** [isOpen && filteredOptions.length > 0]: the list is rendered. *)
Definition dropdownShown (p : props) (st : state) : bool :=
  st.(isOpen) && (0 <? Z.of_nat (List.length (filteredOptions p st))).

Definition setIsOpen (b : bool) (st : state) : state :=
  {| isOpen := b;
     highlightedIndex := st.(highlightedIndex);
     hasInteracted := st.(hasInteracted) |}.

Definition setHighlightedIndex (f : Z -> Z) (st : state) : state :=
  {| isOpen := st.(isOpen);
     highlightedIndex := f st.(highlightedIndex);
     hasInteracted := st.(hasInteracted) |}.

Definition setHasInteracted (b : bool) (st : state) : state :=
  {| isOpen := st.(isOpen);
     highlightedIndex := st.(highlightedIndex);
     hasInteracted := b |}.

(** [a[i]] for an index that is not negative: [undefined] past the end. *)
Definition at_index (a : list string) (i : Z) : option string :=
  nth_error a (Z.to_nat i).

Definition handleInputChange (newValue : string) (st : state)
  : state * list call :=
  let st1 := setHasInteracted true st in
  let st2 := if negb st.(isOpen) then setIsOpen true st1 else st1 in
  (st2, [onChange (Some newValue)]).

Definition handleInputFocus (st : state) : state * list call :=
  (setIsOpen true st, [onFocus]).

Definition handleOptionSelect (time : option string) (st : state)
  : state * list call :=
  (setHasInteracted false (setIsOpen false st), [onChange time; focus]).

Definition handleKeyDown (p : props) (key : string) (st : state)
  : state * list call :=
  if p.(disabled) then (st, [])
  else
    let len := Z.of_nat (List.length (filteredOptions p st)) in
    if String.eqb key "ArrowDown" then
      if negb st.(isOpen) then (setIsOpen true st, [preventDefault])
      else
        (setHighlightedIndex
           (fun prev => if prev <? len - 1 then prev + 1 else 0) st,
         [preventDefault])
    else if String.eqb key "ArrowUp" then
      if negb st.(isOpen) then (setIsOpen true st, [preventDefault])
      else
        (setHighlightedIndex
           (fun prev => if prev >? 0 then prev - 1 else len - 1) st,
         [preventDefault])
    else if String.eqb key "Enter" then
      if st.(isOpen) && (st.(highlightedIndex) >=? 0) then
        let '(st', calls) :=
          handleOptionSelect
            (at_index (filteredOptions p st) st.(highlightedIndex)) st in
        (st', preventDefault :: calls)
      else if negb st.(isOpen) then (setIsOpen true st, [preventDefault])
      else (st, [preventDefault])
    else if String.eqb key "Escape" then
      (setIsOpen false st, [preventDefault])
    else if String.eqb key "Tab" then (setIsOpen false st, [])
    else (st, []).

(** [onMouseEnter] of the option at [index]. *)
Definition handleOptionMouseEnter (index : Z) (st : state) : state :=
  setHighlightedIndex (fun _ => index) st.

End TimePicker.

(** ** The grammar of the design document

    Definitions that follow the words of the design document, to be
    compared with the functions above. *)

(** Lowercase the text and strip every white-space character of it. *)
Definition normalize (text : string) : string :=
  string_of_list_ascii
    (filter (fun c => negb (Js.is_space c))
       (map Js.lower_char (list_ascii_of_string text))).

Definition digit (c : ascii) : Prop := Js.is_digit c = true.

(** [H:MM] or [HH:MM], with the numbers that the digits denote. *)
Inductive Clock : string -> Z -> Z -> Prop :=
| Clock_H d m1 m2 :
    digit d -> digit m1 -> digit m2 ->
    Clock (String d (String ":" (String m1 (String m2 ""))))
      (Js.digit_value d) (10 * Js.digit_value m1 + Js.digit_value m2)
| Clock_HH d1 d2 m1 m2 :
    digit d1 -> digit d2 -> digit m1 -> digit m2 ->
    Clock (String d1 (String d2 (String ":" (String m1 (String m2 "")))))
      (10 * Js.digit_value d1 + Js.digit_value d2)
      (10 * Js.digit_value m1 + Js.digit_value m2).

(** The 24-hour form: [H:MM] or [HH:MM] and nothing after it. *)
Definition Form24 (c : string) (h m : Z) : Prop := Clock c h m.

(** The 12-hour form: [H:MM] or [HH:MM] immediately followed by the
    literal [am] or [pm]. *)
Definition Form12 (c : string) (h m : Z) (p : string) : Prop :=
  exists body, c = body ++ p /\ Clock body h m /\ (p = "am" \/ p = "pm").

(** 12 with am is hour 0, 12 with pm is hour 12, 1-11 with pm is
    [hour + 12], and 1-11 with am is unchanged. *)
Definition hour_of_day (h : Z) (p : string) : Z :=
  if String.eqb p "am" then (if h =? 12 then 0 else h)
  else (if h =? 12 then 12 else h + 12).

Definition Grammar12 (c : string) (v : TimeValue) : Prop :=
  exists h m p,
    Form12 c h m p /\ 1 <= h <= 12 /\ 0 <= m <= 59 /\
    v = {| hours := hour_of_day h p; minutes := m |}.

Definition Grammar24 (c : string) (v : TimeValue) : Prop :=
  exists h m,
    Form24 c h m /\ 0 <= h <= 23 /\ 0 <= m <= 59 /\
    v = {| hours := h; minutes := m |}.

(** The character of a digit [d] between 0 and 9. *)
Definition digit_char (d : Z) : ascii := ascii_of_N (Z.to_N (48 + d)).

(** A number below 100 written with exactly two digits. *)
Definition two_digits (n : Z) : string :=
  String (digit_char (n / 10)) (String (digit_char (n mod 10)) "").

(** A number below 100 written without padding. *)
Definition unpadded (n : Z) : string :=
  if n <? 10 then String (digit_char n) "" else two_digits n.

Definition period_of (h : Z) : string := if h <? 12 then "am" else "pm".

(** 12 when the hour of the day is 0 or 12, otherwise [hour mod 12]. *)
Definition displayed_hour (h : Z) : Z :=
  if (h =? 0) || (h =? 12) then 12 else h mod 12.

Definition formatTime_spec (v : TimeValue) : string :=
  unpadded (displayed_hour (hours v)) ++ ":" ++
  two_digits (minutes v) ++ period_of (hours v).

(** The time of the day that lies [c] minutes after midnight. *)
Definition time_of_minutes (c : Z) : TimeValue :=
  {| hours := c / 60; minutes := c mod 60 |}.

(** The display strings of [start], [start + interval], ..., [n] of
    them. *)
Definition slots (start interval : Z) (n : nat) : list string :=
  map (fun k => formatTime (time_of_minutes (start + Z.of_nat k * interval)))
    (seq 0 n).

(** ** Auxiliary definitions of the proofs *)

(** What the loop body pushes when the current value is [c]. *)
Definition slot (c : Z) : string :=
  formatTime {| hours := c / 60; minutes := Z.rem c 60 |}.

(** How many times the body runs from the current value [c]. *)
Definition iterations (endMinutes intervalMinutes c : Z) : nat :=
  if c <=? endMinutes
  then S (Z.to_nat ((endMinutes - c) / intervalMinutes))
  else O.

(** The minutes of the day that the slots stand for. *)
Definition grid (s i : Z) (n : nat) : list Z :=
  map (fun k => s + Z.of_nat k * i) (seq 0 n).

(** The characters of a formatted time have no case and are not white
    space. *)
Definition plain (c : ascii) : Prop :=
  digit c \/ In c [":"; "a"; "m"; "p"]%char.

(** ** Tactics *)

Ltac absurd_digit :=
  match goal with
  | Hd : Js.is_digit ?x = true |- _ =>
      is_ground x; vm_compute in Hd; discriminate Hd
  end.

(* One step of the symbolic run of a pattern in [H]: decide the next
   test on a character, or look at the next character of the subject. *)
Ltac step_run H :=
  first
    [ match type of H with
      | context [if Js.is_digit ?a then _ else _] =>
          destruct (Js.is_digit a) eqn:?
      | context [if Ascii.eqb ?a ?b then _ else _] =>
          let E := fresh "E" in
          destruct (Ascii.eqb a b) eqn:E;
          [ apply Ascii.eqb_eq in E; subst; try absurd_digit | ]
      end
    | match type of H with
      | context [match ?c with EmptyString => _ | String _ _ => _ end] =>
          is_var c; destruct c
      end ];
  cbn in H; try discriminate H.

Ltac use_digits :=
  repeat match goal with
    | Hd : Js.is_digit ?a = true |- context [Js.is_digit ?a] => rewrite Hd
    end.

Ltac parse_value :=
  unfold Js.parseInt; cbn [group nth Js.parse_digits];
  use_digits; cbn [Js.parse_digits]; try lia.

(* The same step, on the goal. *)
Ltac step_goal :=
  first
    [ match goal with
      | |- context [if Js.is_digit ?a then _ else _] =>
          destruct (Js.is_digit a) eqn:?
      | |- context [if Ascii.eqb ?a ?b then _ else _] =>
          let E := fresh "E" in
          destruct (Ascii.eqb a b) eqn:E;
          [ apply Ascii.eqb_eq in E; subst; try absurd_digit | ]
      end
    | match goal with
      | |- context [match ?c with EmptyString => _ | String _ _ => _ end] =>
          is_var c; destruct c
      end ];
  cbn -[Z.mul Z.add Z.ltb Z.gtb Z.eqb]; try reflexivity.

Ltac all_plain :=
  repeat (apply Forall_cons;
          [ solve [left; assumption | right; cbn; auto 10] |]);
  apply Forall_nil.

(** ** The unit tests of the repository

    The expectations of [src/utils/time.test.ts], evaluated on the
    embedding. *)

Example test_parseTime :
  map parseTime
    ["2:30pm"; "12:00am"; "12:00pm"; "11:59pm"; "1:00am"; "14:30"; "00:00";
     "23:59"; " 2:30pm "; "2 : 30 pm"; "invalid"; "25:00"; "12:60pm";
     "13:00am"; ""] =
  [Some {| hours := 14; minutes := 30 |}; Some {| hours := 0; minutes := 0 |};
   Some {| hours := 12; minutes := 0 |}; Some {| hours := 23; minutes := 59 |};
   Some {| hours := 1; minutes := 0 |}; Some {| hours := 14; minutes := 30 |};
   Some {| hours := 0; minutes := 0 |}; Some {| hours := 23; minutes := 59 |};
   Some {| hours := 14; minutes := 30 |}; Some {| hours := 14; minutes := 30 |};
   None; None; None; None; None].
Proof. reflexivity. Qed.

Example test_formatTime :
  map formatTime
    [{| hours := 14; minutes := 30 |}; {| hours := 0; minutes := 0 |};
     {| hours := 12; minutes := 0 |}; {| hours := 23; minutes := 59 |};
     {| hours := 9; minutes := 5 |}] =
  ["2:30pm"; "12:00am"; "12:00pm"; "11:59pm"; "9:05am"].
Proof. reflexivity. Qed.

Example test_timeToMinutes :
  map timeToMinutes
    [{| hours := 0; minutes := 0 |}; {| hours := 1; minutes := 30 |};
     {| hours := 12; minutes := 0 |}; {| hours := 23; minutes := 59 |}] =
  [0; 90; 720; 1439].
Proof. reflexivity. Qed.

Example test_generateTimeRange :
  generateTimeRange "9:00am" "10:00am" 30 = ["9:00am"; "9:30am"; "10:00am"] /\
  generateTimeRange "9:00am" "9:30am" 15 = ["9:00am"; "9:15am"; "9:30am"] /\
  generateTimeRange "9:00am" "12:00pm" 60 =
    ["9:00am"; "10:00am"; "11:00am"; "12:00pm"] /\
  generateTimeRange "invalid" "10:00am" 30 = [] /\
  generateTimeRange "9:00am" "invalid" 30 = [] /\
  generateTimeRange "10:00am" "9:00am" 30 = [] /\
  generateTimeRange "9:00am" "10:00am" 0 = [] /\
  generateTimeRange "9:00am" "10:00am" (-30) = [].
Proof. repeat split; reflexivity. Qed.

Example test_isValidTime :
  map isValidTime ["2:30pm"; "12:00am"; "14:30"; "invalid"; ""; "25:00"] =
  [true; true; true; false; false; false].
Proof. reflexivity. Qed.

Example test_filterTimesByInput :
  let times := ["9:00am"; "9:30am"; "10:00am"; "10:30am"] in
  filterTimesByInput times "9" = ["9:00am"; "9:30am"] /\
  filterTimesByInput times "10:" = ["10:00am"; "10:30am"] /\
  filterTimesByInput times "30" = ["9:30am"; "10:30am"] /\
  filterTimesByInput times "" = times /\
  filterTimesByInput times "AM" = times.
Proof. repeat split; reflexivity. Qed.

Example test_cleanTimeString :
  map cleanTimeString ["2:30PM"; " 2:30 pm "; "2:30pm"] =
  ["2:30pm"; "2:30pm"; "2:30pm"].
Proof. reflexivity. Qed.

(** ** Case and white space *)

Lemma lower_char_idem c : Js.lower_char (Js.lower_char c) = Js.lower_char c.
Proof. destruct c as [[] [] [] [] [] [] [] []]; reflexivity. Qed.

Lemma is_space_lower_char c : Js.is_space (Js.lower_char c) = Js.is_space c.
Proof. destruct c as [[] [] [] [] [] [] [] []]; reflexivity. Qed.

Lemma toLowerCase_idem s : Js.toLowerCase (Js.toLowerCase s) = Js.toLowerCase s.
Proof.
  induction s as [|c s IH]; cbn; [reflexivity|].
  now rewrite lower_char_idem, IH.
Qed.

Lemma replace_ws_idem s : Js.replace_ws (Js.replace_ws s) = Js.replace_ws s.
Proof.
  induction s as [|c s IH]; cbn; [reflexivity|].
  destruct (Js.is_space c) eqn:E; cbn; [assumption|].
  now rewrite E, IH.
Qed.

Lemma toLowerCase_replace_ws s :
  Js.toLowerCase (Js.replace_ws s) = Js.replace_ws (Js.toLowerCase s).
Proof.
  induction s as [|c s IH]; cbn; [reflexivity|].
  rewrite is_space_lower_char.
  destruct (Js.is_space c); cbn; now rewrite IH.
Qed.

Lemma cleanTimeString_idem s :
  cleanTimeString (cleanTimeString s) = cleanTimeString s.
Proof.
  unfold cleanTimeString.
  now rewrite toLowerCase_replace_ws, toLowerCase_idem, replace_ws_idem.
Qed.

Lemma normalize_eq s : normalize s = cleanTimeString s.
Proof.
  unfold normalize, cleanTimeString.
  induction s as [|c s IH]; cbn; [reflexivity|].
  destruct (Js.is_space (Js.lower_char c)); cbn; now rewrite IH.
Qed.

Lemma replace_ws_no_space s c :
  In c (list_ascii_of_string (Js.replace_ws s)) -> Js.is_space c = false.
Proof.
  induction s as [|a s IH]; cbn; [tauto|].
  destruct (Js.is_space a) eqn:E; cbn; [assumption|].
  intros [<-|H]; auto.
Qed.

(** ** What the two patterns match *)

Lemma re24_sound c m :
  exec re24 c = Some m ->
  exists h mi, Form24 c h mi /\
    Js.parseInt (group m 1) = h /\ Js.parseInt (group m 2) = mi.
Proof.
  unfold exec, re24. intros H. cbn in H.
  repeat step_run H.
  all: injection H as <-; do 2 eexists; split;
    [ constructor; assumption | split; parse_value ].
Qed.

Lemma re12_sound c m :
  exec re12 c = Some m ->
  exists h mi p, Form12 c h mi p /\
    Js.parseInt (group m 1) = h /\ Js.parseInt (group m 2) = mi /\
    group m 3 = p.
Proof.
  unfold exec, re12. intros H. cbn in H.
  repeat step_run H.
  all: injection H as <-.
  all: match goal with
       | |- context [group [_; ?g1; ?g2; ?p] _] =>
           do 2 eexists; exists p; split;
           [ exists (g1 ++ ":" ++ g2); split;
             [ reflexivity | split; [constructor; assumption | auto] ]
           | repeat split; parse_value ]
       end.
Qed.

Lemma re24_complete c h mi :
  Form24 c h mi ->
  exists m, exec re24 c = Some m /\
    Js.parseInt (group m 1) = h /\ Js.parseInt (group m 2) = mi.
Proof.
  intros F. destruct F; unfold digit in *; unfold exec, re24;
    cbn -[Z.mul Z.add]; use_digits; cbn -[Z.mul Z.add]; use_digits;
    eexists; (split; [reflexivity|]); split; parse_value.
Qed.

Lemma re12_complete c h mi p :
  Form12 c h mi p ->
  exists m, exec re12 c = Some m /\
    Js.parseInt (group m 1) = h /\ Js.parseInt (group m 2) = mi /\
    group m 3 = p.
Proof.
  intros (body & -> & F & Hp).
  destruct F, Hp; subst p; unfold digit in *; unfold exec, re12;
    cbn -[Z.mul Z.add]; use_digits; cbn -[Z.mul Z.add]; use_digits;
    eexists; (split; [reflexivity|]); repeat split; parse_value.
Qed.

(** What the call sites of [parseInt] and of [m[i]] receive: every group
    is there, and the two numeric ones start with a digit. *)
Lemma re24_captures c m :
  exec re24 c = Some m ->
  exists d1 g1 d2 g2,
    m = [c; String d1 g1; String d2 g2] /\ digit d1 /\ digit d2.
Proof.
  unfold exec, re24. intros H. cbn in H.
  repeat step_run H.
  all: injection H as <-; do 4 eexists;
    (split; [reflexivity | split; assumption]).
Qed.

Lemma re12_captures c m :
  exec re12 c = Some m ->
  exists d1 g1 d2 g2 p,
    m = [c; String d1 g1; String d2 g2; p] /\ digit d1 /\ digit d2.
Proof.
  unfold exec, re12. intros H. cbn in H.
  repeat step_run H.
  all: injection H as <-; do 5 eexists;
    (split; [reflexivity | split; assumption]).
Qed.

(** A text of the 24-hour form ends in a digit, so the 12-hour pattern,
    which is tried first, does not match it. *)
Lemma re12_rejects_form24 c h mi : Form24 c h mi -> exec re12 c = None.
Proof.
  intros F. destruct F; unfold digit in *; unfold exec, re12;
    cbn; use_digits; cbn; use_digits;
    repeat match goal with
      | |- context [if ?b then _ else _] => destruct b
      end; reflexivity.
Qed.

(** ** Parsing *)

Lemma Form24_unique c h m h' m' :
  Form24 c h m -> Form24 c h' m' -> h = h' /\ m = m'.
Proof.
  intros F F'.
  apply re24_complete in F as (r & E & <- & <-).
  apply re24_complete in F' as (r' & E' & <- & <-).
  rewrite E in E'. injection E' as <-. auto.
Qed.

Lemma Form12_unique c h m p h' m' p' :
  Form12 c h m p -> Form12 c h' m' p' -> h = h' /\ m = m' /\ p = p'.
Proof.
  intros F F'.
  apply re12_complete in F as (r & E & <- & <- & <-).
  apply re12_complete in F' as (r' & E' & <- & <- & <-).
  rewrite E in E'. injection E' as <-. auto.
Qed.

Lemma Form12_not_Form24 c h m p h' m' : Form12 c h m p -> ~ Form24 c h' m'.
Proof.
  intros F F'.
  apply re12_complete in F as (r & E & _).
  apply re12_rejects_form24 in F'. congruence.
Qed.

(** [parseTime] accepts exactly the texts of the two grammars. *)
Lemma parseTime_grammar s v :
  parseTime s = Some v <->
  Grammar12 (cleanTimeString s) v \/ Grammar24 (cleanTimeString s) v.
Proof.
  unfold parseTime. fold (cleanTimeString s).
  set (c := cleanTimeString s). split.
  - destruct (exec re12 c) as [r|] eqn:E12.
    + apply re12_sound in E12 as (h & mi & p & F & <- & <- & <-).
      destruct (_ || _) eqn:B; [discriminate|].
      intros [= <-]. left. exists (Js.parseInt (group r 1)),
        (Js.parseInt (group r 2)), (group r 3).
      repeat split; try assumption; lia.
    + destruct (exec re24 c) as [r|] eqn:E24; [|discriminate].
      apply re24_sound in E24 as (h & mi & F & <- & <-).
      destruct (_ || _) eqn:B; [discriminate|].
      intros [= <-]. right. exists (Js.parseInt (group r 1)),
        (Js.parseInt (group r 2)).
      repeat split; try assumption; lia.
  - intros [(h & mi & p & F & Hh & Hm & ->)|(h & mi & F & Hh & Hm & ->)].
    + apply re12_complete in F as (r & -> & <- & <- & <-).
      destruct (_ || _) eqn:B; [lia|reflexivity].
    + rewrite (re12_rejects_form24 _ _ _ F).
      apply re24_complete in F as (r & -> & <- & <-).
      destruct (_ || _) eqn:B; [lia|reflexivity].
Qed.

(** The values that [parseTime] returns are times of the day. *)
Lemma parseTime_range s v :
  parseTime s = Some v -> 0 <= hours v <= 23 /\ 0 <= minutes v <= 59.
Proof.
  intros H. apply parseTime_grammar in H
    as [(h & mi & p & F & Hh & Hm & ->)|(h & mi & F & Hh & Hm & ->)];
    cbn; [|lia].
  unfold hour_of_day.
  destruct F as (_ & _ & _ & [-> | ->]); cbn; destruct (h =? 12) eqn:E; lia.
Qed.

(** ** Formatting *)

(** A property decided on each of the first [n] naturals holds below
    [n]. *)
Lemma forallb_below (f : Z -> bool) (n : nat) :
  forallb f (map Z.of_nat (seq 0 n)) = true ->
  forall z, 0 <= z < Z.of_nat n -> f z = true.
Proof.
  intros H z Hz. rewrite forallb_forall in H. apply H.
  apply in_map_iff. exists (Z.to_nat z). split; [lia|].
  apply in_seq. lia.
Qed.

Lemma padStart_minutes m :
  0 <= m <= 59 -> Js.padStart (Js.toString m) 2 "0" = two_digits m.
Proof.
  intros Hm. apply String.eqb_eq.
  apply (forallb_below
           (fun z => String.eqb (Js.padStart (Js.toString z) 2 "0")
                       (two_digits z)) 60); [reflexivity | lia].
Qed.

Lemma toString_hour n : 0 <= n <= 23 -> Js.toString n = unpadded n.
Proof.
  intros Hn. apply String.eqb_eq.
  apply (forallb_below
           (fun z => String.eqb (Js.toString z) (unpadded z)) 24);
    [reflexivity | lia].
Qed.

Lemma formatTime_eq_spec v :
  0 <= hours v <= 23 -> 0 <= minutes v <= 59 ->
  formatTime v = formatTime_spec v.
Proof.
  destruct v as [h m]. cbn [hours minutes]. intros Hh Hm.
  unfold formatTime, formatTime_spec. cbn [hours minutes].
  rewrite (padStart_minutes m Hm).
  assert (Hd : (if h =? 0 then 12 else if h >? 12 then h - 12 else h)
               = displayed_hour h).
  { unfold displayed_hour.
    destruct (h =? 0) eqn:E0; [reflexivity|].
    destruct (h =? 12) eqn:E12; cbn [orb].
    - destruct (h >? 12) eqn:G; lia.
    - destruct (h >? 12) eqn:G; Z.div_mod_to_equations; lia. }
  rewrite Hd, toString_hour.
  - unfold period_of. destruct (h >=? 12) eqn:G, (h <? 12) eqn:L;
      try reflexivity; lia.
  - unfold displayed_hour.
    destruct ((h =? 0) || (h =? 12)); [lia|].
    Z.div_mod_to_equations. lia.
Qed.

Lemma two_digits_shape n :
  0 <= n <= 99 ->
  exists a b, two_digits n = String a (String b "") /\
    digit a /\ digit b /\ 10 * Js.digit_value a + Js.digit_value b = n.
Proof.
  intros Hn. unfold two_digits. do 2 eexists. split; [reflexivity|].
  pose proof (Z.mod_pos_bound n 10 eq_refl) as Hr.
  assert (0 <= n / 10 <= 9) as Hq.
  { split; [apply Z.div_pos; lia|].
    apply Z.lt_succ_r, Z.div_lt_upper_bound; lia. }
  assert (Hc : forall d, 0 <= d <= 9 ->
                 digit (digit_char d) /\ Js.digit_value (digit_char d) = d).
  { intros d Hd.
    assert (Js.code (digit_char d) = 48 + d) as E.
    { unfold Js.code, digit_char. rewrite N_ascii_embedding; lia. }
    unfold digit, Js.is_digit, Js.in_range, Js.digit_value. rewrite E.
    split; lia. }
  destruct (Hc _ Hq) as [? E1], (Hc (n mod 10)) as [? E2]; [lia|].
  repeat split; try assumption. rewrite E1, E2.
  rewrite (Z.div_mod n 10) at 3 by lia. reflexivity.
Qed.

Lemma digit_char_digit d :
  0 <= d <= 9 -> digit (digit_char d) /\ Js.digit_value (digit_char d) = d.
Proof.
  intros Hd.
  assert (Js.code (digit_char d) = 48 + d) as E.
  { unfold Js.code, digit_char. rewrite N_ascii_embedding; lia. }
  unfold digit, Js.is_digit, Js.in_range, Js.digit_value. rewrite E.
  split; lia.
Qed.

Lemma plain_char c :
  plain c -> Js.lower_char c = c /\ Js.is_space c = false.
Proof.
  unfold plain.
  destruct c as [[] [] [] [] [] [] [] []]; try (split; reflexivity);
    intros [H|H];
    solve [ vm_compute in H; discriminate
          | cbn in H; intuition discriminate ].
Qed.

Lemma cleanTimeString_plain s :
  Forall plain (list_ascii_of_string s) -> cleanTimeString s = s.
Proof.
  unfold cleanTimeString.
  induction s as [|c s IH]; cbn; [reflexivity|].
  intros H. inversion H as [|? ? Hc Hs]; subst.
  destruct (plain_char c Hc) as [-> ->]. now rewrite IH.
Qed.

(** The round trip through the display string. *)
Lemma parse_format v :
  0 <= hours v <= 23 -> 0 <= minutes v <= 59 ->
  parseTime (formatTime v) = Some v.
Proof.
  intros Hh Hm. rewrite formatTime_eq_spec by assumption.
  destruct v as [h m]. cbn [hours minutes] in *.
  apply parseTime_grammar. left.
  unfold formatTime_spec. cbn [hours minutes].
  destruct (two_digits_shape m) as (a & b & -> & Ha & Hb & Em); [lia|].
  assert (Hdh : 1 <= displayed_hour h <= 12).
  { unfold displayed_hour. destruct ((h =? 0) || (h =? 12)) eqn:E; [lia|].
    Z.div_mod_to_equations. lia. }
  assert (Hp : period_of h = "am" \/ period_of h = "pm").
  { unfold period_of. destruct (h <? 12); auto. }
  assert (Hv : hour_of_day (displayed_hour h) (period_of h) = h).
  { unfold hour_of_day, period_of, displayed_hour.
    destruct (h <? 12) eqn:L; cbn [String.eqb Ascii.eqb Bool.eqb].
    - destruct ((h =? 0) || (h =? 12)) eqn:E.
      + cbn. lia.
      + destruct (h mod 12 =? 12) eqn:E'; Z.div_mod_to_equations; lia.
    - destruct ((h =? 0) || (h =? 12)) eqn:E.
      + cbn. lia.
      + destruct (h mod 12 =? 12) eqn:E'; Z.div_mod_to_equations; lia. }
  exists (displayed_hour h), m, (period_of h).
  split; [|repeat split; try lia; now rewrite Hv].
  unfold unpadded.
  destruct (displayed_hour h <? 10) eqn:L.
  - destruct (digit_char_digit (displayed_hour h)) as [Hd Ed]; [lia|].
    rewrite cleanTimeString_plain.
    + exists (String (digit_char (displayed_hour h))
                (String ":" (String a (String b "")))).
      split; [reflexivity|]. split; [|assumption].
      rewrite <- Ed at 2. rewrite <- Em. now constructor.
    + destruct Hp as [-> | ->]; cbn; all_plain.
  - destruct (two_digits_shape (displayed_hour h))
      as (x & y & -> & Hx & Hy & Exy); [lia|].
    rewrite cleanTimeString_plain.
    + exists (String x (String y (String ":" (String a (String b ""))))).
      split; [reflexivity|]. split; [|assumption].
      rewrite <- Exy, <- Em. now constructor.
    + destruct Hp as [-> | ->]; cbn; all_plain.
Qed.

(** ** Range generation *)

Section Loop.

Variables endMinutes intervalMinutes : Z.
Hypothesis Hpos : intervalMinutes > 0.

Local Abbreviation body := (loop_body intervalMinutes).
Local Abbreviation loop := (range_loop endMinutes intervalMinutes Hpos).
Local Abbreviation iterations := (iterations endMinutes intervalMinutes).

(** The loop unfolds as a [while] does. *)
Lemma range_loop_eq st :
  loop st = if loop_cond endMinutes st then loop (body st) else st.
Proof.
  funelim (range_loop endMinutes intervalMinutes Hpos st);
    match goal with E : loop_cond _ _ = _ |- _ => now rewrite E end.
Qed.

Lemma iterations_step c :
  c <= endMinutes ->
  iterations c = S (iterations (c + intervalMinutes)).
Proof.
  intros Hc. unfold iterations.
  destruct (c <=? endMinutes) eqn:E; [|lia]. f_equal.
  destruct (c + intervalMinutes <=? endMinutes) eqn:E'.
  - replace (endMinutes - c)
      with (endMinutes - (c + intervalMinutes) + 1 * intervalMinutes)
      by lia.
    rewrite Z.div_add by lia.
    assert (0 <= (endMinutes - (c + intervalMinutes)) / intervalMinutes)
      by (apply Z.div_pos; lia).
    lia.
  - rewrite Z.div_small by lia. reflexivity.
Qed.

Lemma range_loop_iter st :
  loop st = Nat.iter (iterations (currentMinutes st)) body st.
Proof.
  remember (iterations (currentMinutes st)) as n eqn:En.
  revert st En. induction n as [|n IH]; intros st En;
    rewrite range_loop_eq; unfold loop_cond;
    destruct (currentMinutes st <=? endMinutes) eqn:E.
  - unfold iterations in En. rewrite E in En. discriminate.
  - reflexivity.
  - rewrite iterations_step in En by lia. injection En as En.
    rewrite (IH (body st)) by exact En.
    symmetry. apply Nat.iter_succ_r.
  - unfold iterations in En. rewrite E in En. discriminate.
Qed.

(** The state after [k] runs of the body. *)
Lemma iter_body k c l :
  Nat.iter k body {| currentMinutes := c; times := l |} =
  {| currentMinutes := c + Z.of_nat k * intervalMinutes;
     times :=
       l ++ map (fun j => slot (c + Z.of_nat j * intervalMinutes))
              (seq 0 k) |}.
Proof.
  induction k as [|k IH].
  - cbn. now rewrite Z.add_0_r, app_nil_r.
  - rewrite Nat.iter_succ, IH. unfold loop_body. cbn [currentMinutes times].
    f_equal; [lia|].
    rewrite seq_S, map_app, app_assoc. reflexivity.
Qed.

(** The test holds before each run of the body and fails after the
    last. *)
Lemma loop_cond_iter k c l :
  loop_cond endMinutes
    (Nat.iter k body {| currentMinutes := c; times := l |}) =
  (k <? iterations c)%nat.
Proof.
  rewrite iter_body. unfold loop_cond, iterations. cbn [currentMinutes].
  destruct (c <=? endMinutes) eqn:E.
  - pose proof (Z.div_pos (endMinutes - c) intervalMinutes) as Hq.
    pose proof (Z.mul_div_le (endMinutes - c) intervalMinutes) as Hle.
    pose proof (Z.mul_succ_div_gt (endMinutes - c) intervalMinutes) as Hgt.
    set (q := (endMinutes - c) / intervalMinutes) in *.
    destruct (k <? S (Z.to_nat q))%nat eqn:K.
    + apply Nat.ltb_lt in K. apply Z.leb_le. nia.
    + apply Nat.ltb_ge in K. apply Z.leb_gt. nia.
  - destruct (k <? 0)%nat eqn:K; [apply Nat.ltb_lt in K; lia|].
    apply Z.leb_gt. nia.
Qed.

End Loop.

Lemma slot_time_of_minutes c : 0 <= c -> slot c = formatTime (time_of_minutes c).
Proof.
  intros Hc. unfold slot, time_of_minutes.
  now rewrite Z.rem_mod_nonneg by lia.
Qed.

Lemma timeToMinutes_time_of_minutes c : timeToMinutes (time_of_minutes c) = c.
Proof.
  unfold timeToMinutes, time_of_minutes. cbn [hours minutes].
  rewrite (Z.div_mod c 60) at 3 by lia. lia.
Qed.

(** A minute of the day survives formatting and parsing. *)
Lemma parse_slot c :
  0 <= c <= 1439 ->
  parseTime (formatTime (time_of_minutes c)) = Some (time_of_minutes c).
Proof.
  intros Hc. apply parse_format; unfold time_of_minutes; cbn [hours minutes];
    Z.div_mod_to_equations; lia.
Qed.

Lemma timeToMinutes_parsed s v :
  parseTime s = Some v -> 0 <= timeToMinutes v <= 1439.
Proof.
  intros H. apply parseTime_range in H. unfold timeToMinutes. lia.
Qed.

(** The multiples of the interval that fit between the end points. *)
Lemma grid_bounds s e i k :
  s <= e -> i > 0 ->
  (k < S (Z.to_nat ((e - s) / i)))%nat <-> s + Z.of_nat k * i <= e.
Proof.
  intros Hse Hi.
  pose proof (Z.div_pos (e - s) i) as Hq.
  pose proof (Z.mul_div_le (e - s) i) as Hle.
  pose proof (Z.mul_succ_div_gt (e - s) i) as Hgt.
  set (q := (e - s) / i) in *. split; intros H; nia.
Qed.

Lemma generateTimeRange_valid st en i a b :
  parseTime st = Some a -> parseTime en = Some b ->
  timeToMinutes a <= timeToMinutes b -> i > 0 ->
  generateTimeRange st en i =
  slots (timeToMinutes a) i
    (S (Z.to_nat ((timeToMinutes b - timeToMinutes a) / i))).
Proof.
  intros Ha Hb Hab Hi. unfold generateTimeRange. rewrite Ha, Hb.
  pose proof (timeToMinutes_parsed _ _ Ha) as Ra.
  destruct (timeToMinutes a >? timeToMinutes b) eqn:G; [lia|].
  destruct (Z_le_gt_dec i 0) as [|Hpos]; [lia|].
  rewrite range_loop_iter, iter_body. cbn [times currentMinutes app].
  unfold iterations. destruct (timeToMinutes a <=? timeToMinutes b) eqn:L;
    [|lia].
  unfold slots. apply map_ext_in. intros k _.
  apply slot_time_of_minutes. nia.
Qed.

Lemma generateTimeRange_invalid st en i :
  parseTime st = None \/ parseTime en = None \/ i <= 0 \/
  (exists a b, parseTime st = Some a /\ parseTime en = Some b /\
               timeToMinutes a > timeToMinutes b) ->
  generateTimeRange st en i = [].
Proof.
  unfold generateTimeRange.
  intros [H|[H|[H|(a & b & Ha & Hb & H)]]].
  - now rewrite H.
  - rewrite H. now destruct (parseTime st).
  - destruct (parseTime st), (parseTime en); try reflexivity.
    destruct (_ >? _); [reflexivity|].
    destruct (Z_le_gt_dec i 0); [reflexivity|lia].
  - rewrite Ha, Hb.
    destruct (timeToMinutes a >? timeToMinutes b) eqn:G; [reflexivity|lia].
Qed.

Lemma nth_grid s i n k : (k < n)%nat -> nth k (grid s i n) 0 = s + Z.of_nat k * i.
Proof.
  intros Hk. unfold grid.
  rewrite (nth_indep _ 0 ((fun k => s + Z.of_nat k * i) O))
    by now rewrite length_map, length_seq.
  rewrite (map_nth (fun k => s + Z.of_nat k * i)), seq_nth by assumption.
  reflexivity.
Qed.

Lemma length_grid s i n : List.length (grid s i n) = n.
Proof. unfold grid. now rewrite length_map, length_seq. Qed.

Lemma length_slots s i n : List.length (slots s i n) = n.
Proof. unfold slots. now rewrite length_map, length_seq. Qed.

Lemma last_slots s i n :
  last (slots s i (S n)) "" = formatTime (time_of_minutes (s + Z.of_nat n * i)).
Proof.
  unfold slots. rewrite seq_S, map_app. cbn [map]. apply last_last.
Qed.

Lemma last_grid s i n : last (grid s i (S n)) 0 = s + Z.of_nat n * i.
Proof.
  unfold grid. rewrite seq_S, map_app. cbn [map]. apply last_last.
Qed.

Lemma parse_slots s i n :
  (forall k, (k < n)%nat -> 0 <= s + Z.of_nat k * i <= 1439) ->
  map (fun x => option_map timeToMinutes (parseTime x)) (slots s i n) =
  map Some (grid s i n).
Proof.
  intros H. unfold slots, grid. rewrite !map_map.
  apply map_ext_in. intros k Hk. apply in_seq in Hk.
  rewrite parse_slot by (apply H; lia). cbn [option_map].
  now rewrite timeToMinutes_time_of_minutes.
Qed.

(** ** Filtering *)

Lemma startsWith_prefix s p :
  Js.startsWith s p = true <-> exists post, s = p ++ post.
Proof.
  revert s. induction p as [|a p IH]; intros s; cbn.
  - split; [intros _; now exists s | reflexivity].
  - destruct s as [|b s]; [split; [discriminate | intros [? [=]]]|].
    rewrite andb_true_iff, Ascii.eqb_eq, IH. split.
    + intros [-> [post ->]]. now exists post.
    + intros [post [= -> ->]]. split; [reflexivity | now exists post].
Qed.

(** [includes] finds the occurrences of a substring, wherever they are. *)
Lemma includes_substring s p :
  Js.includes s p = true <-> exists pre post, s = pre ++ p ++ post.
Proof.
  induction s as [|c s IH]; cbn [Js.includes];
    rewrite orb_true_iff, startsWith_prefix.
  - split.
    + intros [[post E]|H]; [now exists "", post | discriminate].
    + intros (pre & post & E). left.
      destruct pre; [now exists post | discriminate].
  - rewrite IH. split.
    + intros [[post E]|(pre & post & ->)]; [now exists "", post|].
      now exists (String c pre), post.
    + intros ([|c' pre] & post & E); [left; now exists post|].
      injection E as -> ->. right. now exists pre, post.
Qed.

(** ** The statements of the design document *)

Local Abbreviation tm := timeToMinutes.

(** C1.  [parseTime] lowercases its input and strips every white-space
    character of it, wherever it stands.  On the text that remains it
    accepts exactly two grammars: the 12-hour form [H:MM] or [HH:MM]
    immediately followed by [am] or [pm], with the hour in 1..12 and the
    minute in 0..59, where 12am is hour 0, 12pm is hour 12, 1-11pm is
    [hour + 12] and 1-11am is unchanged; and the 24-hour form [H:MM] or
    [HH:MM] without a suffix, with the hour in 0..23 and the minute in
    0..59.  The value it returns is the one the grammar gives, and no text
    belongs to both grammars, so the order in which they are tried does not
    show. *)
Theorem parseTime_two_grammars s :
  (forall v,
     parseTime s = Some v <->
     Grammar12 (normalize s) v \/ Grammar24 (normalize s) v) /\
  (forall v v', Grammar12 (normalize s) v -> ~ Grammar24 (normalize s) v').
Proof.
  rewrite normalize_eq. split.
  - intros v. apply parseTime_grammar.
  - intros v v' (h & m & p & F & _) (h' & m' & F' & _).
    exact (Form12_not_Form24 _ _ _ _ _ _ F F').
Qed.

Lemma parseTime_two_grammars_witness :
  parseTime "2 : 30 PM" = Some {| hours := 14; minutes := 30 |}.
Proof.
  apply (proj1 (parseTime_two_grammars "2 : 30 PM")). left.
  exists 2, 30, "pm". split; [|repeat split; lia].
  exists "2:30". split; [reflexivity|]. split; [|now right].
  exact (Clock_H "2" "3" "0" eq_refl eq_refl eq_refl).
Defined.

(** C3.  For every TimeValue with its hour in 0..23 and its minute in
    0..59, parsing the formatted value succeeds and gives the value
    back. *)
Theorem parse_format_round_trip v :
  0 <= hours v <= 23 -> 0 <= minutes v <= 59 ->
  parseTime (formatTime v) = Some v.
Proof. apply parse_format. Qed.

Lemma parse_format_round_trip_witness :
  parseTime (formatTime {| hours := 14; minutes := 5 |}) =
  Some {| hours := 14; minutes := 5 |}.
Proof.
  apply (parse_format_round_trip {| hours := 14; minutes := 5 |});
    cbn; lia.
Defined.

(** C4.  For every TimeValue with its hour in 0..23 and its minute in
    0..59, [formatTime] writes the 12-hour format: the displayed hour (12
    for the hours 0 and 12 of the day, [hour mod 12] for the others)
    without padding, a colon, the minute with exactly two digits, and [am]
    below hour 12, [pm] from it on. *)
Theorem formatTime_twelve_hour v :
  0 <= hours v <= 23 -> 0 <= minutes v <= 59 ->
  formatTime v =
    unpadded (displayed_hour (hours v)) ++ ":" ++
    two_digits (minutes v) ++ period_of (hours v) /\
  String.length (two_digits (minutes v)) = 2%nat /\
  Js.parseInt (two_digits (minutes v)) = minutes v /\
  Js.parseInt (unpadded (displayed_hour (hours v))) = displayed_hour (hours v) /\
  String.get 0 (unpadded (displayed_hour (hours v))) <> Some "0"%char.
Proof.
  intros Hh Hm. split; [now apply formatTime_eq_spec|].
  split; [reflexivity|]. split.
  - apply Z.eqb_eq.
    apply (forallb_below (fun m => Js.parseInt (two_digits m) =? m) 60);
      [reflexivity | lia].
  - pose proof (forallb_below
        (fun h =>
           (Js.parseInt (unpadded (displayed_hour h)) =? displayed_hour h) &&
           negb (Ascii.eqb
                   (match String.get 0 (unpadded (displayed_hour h)) with
                    | Some c => c
                    | None => "0"%char
                    end) "0")) 24 eq_refl (hours v)) as H.
    apply andb_true_iff in H as [H1 H2]; [|lia].
    split; [now apply Z.eqb_eq|].
    intros E. rewrite E in H2. discriminate.
Qed.

Lemma formatTime_twelve_hour_witness :
  formatTime {| hours := 0; minutes := 5 |} = "12:05am".
Proof.
  apply (proj1 (formatTime_twelve_hour {| hours := 0; minutes := 5 |}
                  ltac:(cbn; lia) ltac:(cbn; lia))).
Defined.

(** C10.  Cleaning a text with [cleanTimeString] before parsing it does
    not change what [parseTime] returns: case and white space are
    invisible to parsing. *)
Theorem parseTime_cleanTimeString s :
  parseTime (cleanTimeString s) = parseTime s.
Proof.
  unfold parseTime. fold (cleanTimeString (cleanTimeString s)).
  fold (cleanTimeString s). now rewrite cleanTimeString_idem.
Qed.

(** C8.  [parseTime] returns the absent value exactly when the normalised
    text has neither form, or has one of them with a number out of its
    bounds; being a total function, it signals nothing in any other way.
    In particular it returns the absent value on "25:00" and on
    "13:00am". *)
Theorem parseTime_none :
  (forall s,
     parseTime s = None <->
     ((forall h m p, ~ Form12 (normalize s) h m p) /\
      (forall h m, ~ Form24 (normalize s) h m)) \/
     (exists h m p, Form12 (normalize s) h m p /\
                    ~ (1 <= h <= 12 /\ 0 <= m <= 59)) \/
     (exists h m, Form24 (normalize s) h m /\
                  ~ (0 <= h <= 23 /\ 0 <= m <= 59))) /\
  parseTime "25:00" = None /\
  parseTime "13:00am" = None.
Proof.
  split; [|split; reflexivity].
  intros s. rewrite normalize_eq. set (c := cleanTimeString s). split.
  - intros HN.
    destruct (exec re12 c) as [r|] eqn:E12.
    + right. left. apply re12_sound in E12 as (h & m & p & F & _).
      exists h, m, p. split; [assumption|]. intros [Hh Hm].
      assert (parseTime s = Some {| hours := hour_of_day h p; minutes := m |})
        as E; [|congruence].
      apply parseTime_grammar. left. now exists h, m, p.
    + destruct (exec re24 c) as [r|] eqn:E24.
      * right. right. apply re24_sound in E24 as (h & m & F & _).
        exists h, m. split; [assumption|]. intros [Hh Hm].
        assert (parseTime s = Some {| hours := h; minutes := m |})
          as E; [|congruence].
        apply parseTime_grammar. right. now exists h, m.
      * left. split.
        -- intros h m p F. apply re12_complete in F as (r & E & _).
           fold c in E12. congruence.
        -- intros h m F. apply re24_complete in F as (r & E & _).
           fold c in E24. congruence.
  - intros H. destruct (parseTime s) as [v|] eqn:E; [exfalso|reflexivity].
    apply parseTime_grammar in E. fold c in E.
    destruct E as [(h & m & p & F & Hh & Hm & _)|(h & m & F & Hh & Hm & _)];
      destruct H as [[N12 N24]|[(h' & m' & p' & F' & B)|(h' & m' & F' & B)]].
    + exact (N12 _ _ _ F).
    + destruct (Form12_unique _ _ _ _ _ _ _ F F') as (-> & -> & _). tauto.
    + exact (Form12_not_Form24 _ _ _ _ _ _ F F').
    + exact (N24 _ _ F).
    + exact (Form12_not_Form24 _ _ _ _ _ _ F' F).
    + destruct (Form24_unique _ _ _ _ _ F F') as (-> & ->). tauto.
Qed.

Lemma parseTime_none_witness : parseTime "7:75" = None.
Proof.
  apply (proj1 parseTime_none "7:75"). right. right.
  exists 7, 75. split; [|lia].
  exact (Clock_H "7" "7" "5" eq_refl eq_refl eq_refl).
Defined.

(** C2.  When both end points parse, the start is not after the end and
    the interval is positive, [generateTimeRange] returns the display
    strings of [start], [start + interval], [start + 2 * interval], ...,
    each formatted by [formatTime], for exactly the values that do not
    exceed the end; so its last element is a time that is not after the
    end.  In particular the range from 9:00am to 10:00am by 30 is
    9:00am, 9:30am, 10:00am. *)
Theorem generateTimeRange_sequence :
  (forall st en i a b,
     parseTime st = Some a -> parseTime en = Some b ->
     tm a <= tm b -> i > 0 ->
     exists n,
       generateTimeRange st en i = slots (tm a) i n /\
       (forall k, (k < n)%nat <-> tm a + Z.of_nat k * i <= tm b) /\
       exists v,
         parseTime (last (generateTimeRange st en i) "") = Some v /\
         tm v <= tm b) /\
  generateTimeRange "9:00am" "10:00am" 30 = ["9:00am"; "9:30am"; "10:00am"].
Proof.
  split; [|reflexivity].
  intros st en i a b Ha Hb Hab Hi.
  pose proof (timeToMinutes_parsed _ _ Ha) as Ra.
  pose proof (timeToMinutes_parsed _ _ Hb) as Rb.
  rewrite (generateTimeRange_valid _ _ _ _ _ Ha Hb Hab Hi).
  set (q := Z.to_nat ((tm b - tm a) / i)).
  exists (S q). split; [reflexivity|].
  split; [intros k; now apply grid_bounds|].
  assert (tm a + Z.of_nat q * i <= tm b) as Hq
    by (apply (grid_bounds (tm a) (tm b) i q); [assumption..|unfold q; lia]).
  exists (time_of_minutes (tm a + Z.of_nat q * i)).
  rewrite last_slots, parse_slot by nia.
  split; [reflexivity|]. now rewrite timeToMinutes_time_of_minutes.
Qed.

Lemma generateTimeRange_sequence_witness :
  exists n, generateTimeRange "9:00am" "9:40am" 15 = slots 540 15 n.
Proof.
  destruct (proj1 generateTimeRange_sequence "9:00am" "9:40am" 15
              {| hours := 9; minutes := 0 |} {| hours := 9; minutes := 40 |}
              eq_refl eq_refl ltac:(cbn; lia) eq_refl) as (n & E & _).
  exists n. exact E.
Defined.

(** C5.  [generateTimeRange] returns the empty sequence, as an ordinary
    value, exactly when the start does not parse, or the end does not
    parse, or the interval is not positive, or the start is after the
    end.  In particular the range from 10:00am to 9:00am by 30 and the
    range from 9:00am to 10:00am by 0 are empty. *)
Theorem generateTimeRange_empty_iff :
  (forall st en i,
     generateTimeRange st en i = [] <->
     parseTime st = None \/ parseTime en = None \/ i <= 0 \/
     exists a b, parseTime st = Some a /\ parseTime en = Some b /\
                 tm a > tm b) /\
  generateTimeRange "10:00am" "9:00am" 30 = [] /\
  generateTimeRange "9:00am" "10:00am" 0 = [].
Proof.
  split; [|split; reflexivity].
  intros st en i. split; [|apply generateTimeRange_invalid].
  intros HE.
  destruct (parseTime st) as [a|] eqn:Ha; [|now left].
  destruct (parseTime en) as [b|] eqn:Hb; [|now right; left].
  destruct (Z_le_gt_dec i 0) as [|Hi]; [now right; right; left|].
  destruct (Z_le_gt_dec (tm a) (tm b)) as [Hab|Hab];
    [|right; right; right; now exists a, b].
  rewrite (generateTimeRange_valid _ _ _ _ _ Ha Hb Hab Hi) in HE.
  discriminate HE.
Qed.

Lemma generateTimeRange_empty_iff_witness :
  generateTimeRange "9:00am" "noon" (-5) = [].
Proof.
  apply (proj1 generateTimeRange_empty_iff "9:00am" "noon" (-5)).
  right. left. reflexivity.
Defined.

(** C6.  [filterTimesByInput] returns the options unchanged when the
    input, lowercased and stripped of white space, is empty.  Otherwise it
    keeps, in their order, exactly the options whose own lowercased and
    stripped form contains the normalised input as a substring, at any
    position.  In particular the options 9:00am, 9:30am, 10:00am filtered
    by "9" are 9:00am, 9:30am. *)
Theorem filterTimesByInput_spec :
  (forall options input,
     (normalize input = "" -> filterTimesByInput options input = options) /\
     (normalize input <> "" ->
      exists keep,
        filterTimesByInput options input = filter keep options /\
        forall o,
          keep o = true <->
          exists pre post, normalize o = pre ++ normalize input ++ post)) /\
  filterTimesByInput ["9:00am"; "9:30am"; "10:00am"] "9" =
    ["9:00am"; "9:30am"].
Proof.
  split; [|reflexivity].
  intros options input. unfold filterTimesByInput.
  fold (cleanTimeString input). rewrite normalize_eq. split.
  - intros ->. reflexivity.
  - intros HN.
    destruct (String.eqb_spec (cleanTimeString input) "") as [E|_];
      [contradiction|].
    exists (fun time =>
              Js.includes (cleanTimeString time) (cleanTimeString input)).
    split; [reflexivity|].
    intros o. rewrite normalize_eq. apply includes_substring.
Qed.

Lemma filterTimesByInput_spec_witness :
  filterTimesByInput ["9:00am"; "9:30am"] " " = ["9:00am"; "9:30am"].
Proof.
  apply (proj1 (proj1 filterTimesByInput_spec ["9:00am"; "9:30am"] " ")).
  reflexivity.
Defined.

(** C7.  Every sequence that [generateTimeRange] returns is ordered.  Each
    of its elements parses; the minutes of the day of its elements never
    decrease along the sequence, and two neighbours differ by exactly the
    interval; when the sequence is not empty its first element is the
    start, and its last element is the end if the end lies on the grid of
    the interval from the start, and otherwise lies before the end by less
    than one interval. *)
Theorem generateTimeRange_ordered st en i :
  exists ms,
    map (fun x => option_map tm (parseTime x)) (generateTimeRange st en i) =
      map Some ms /\
    (forall j k, (j <= k < List.length ms)%nat -> nth j ms 0 <= nth k ms 0) /\
    (forall k, (S k < List.length ms)%nat -> nth (S k) ms 0 = nth k ms 0 + i) /\
    (generateTimeRange st en i = [] \/
     exists a b,
       parseTime st = Some a /\ parseTime en = Some b /\
       hd 0 ms = tm a /\
       ((tm b - tm a) mod i = 0 -> last ms 0 = tm b) /\
       ((tm b - tm a) mod i <> 0 -> tm b - i < last ms 0 < tm b)).
Proof.
  destruct (parseTime st) as [a|] eqn:Ha;
    [|exists []; rewrite generateTimeRange_invalid by auto;
      cbn; repeat split; auto; intros; lia].
  destruct (parseTime en) as [b|] eqn:Hb;
    [|exists []; rewrite generateTimeRange_invalid by auto;
      cbn; repeat split; auto; intros; lia].
  destruct (Z_le_gt_dec i 0) as [|Hi];
    [exists []; rewrite generateTimeRange_invalid by auto;
     cbn; repeat split; auto; intros; lia|].
  destruct (Z_le_gt_dec (tm a) (tm b)) as [Hab|Hab];
    [|exists []; rewrite generateTimeRange_invalid
        by (right; right; right; now exists a, b);
      cbn; repeat split; auto; intros; lia].
  pose proof (timeToMinutes_parsed _ _ Ha) as Ra.
  pose proof (timeToMinutes_parsed _ _ Hb) as Rb.
  rewrite (generateTimeRange_valid _ _ _ _ _ Ha Hb Hab Hi).
  set (q := Z.to_nat ((tm b - tm a) / i)).
  assert (Hgrid : forall k, (k < S q)%nat -> tm a + Z.of_nat k * i <= tm b)
    by (intros k Hk; now apply grid_bounds).
  exists (grid (tm a) i (S q)). rewrite length_grid.
  split; [apply parse_slots; intros k Hk; specialize (Hgrid k Hk); nia|].
  split; [intros j k Hjk; rewrite !nth_grid by lia; nia|].
  split; [intros k Hk; rewrite !nth_grid by lia; lia|].
  right. exists a, b. do 2 (split; [reflexivity|]).
  split; [cbn; lia|]. rewrite last_grid.
  assert (Z.of_nat q = (tm b - tm a) / i) as ->
    by (unfold q; rewrite Z2Nat.id; [reflexivity | apply Z.div_pos; lia]).
  pose proof (Z.div_mod (tm b - tm a) i) as Hdm.
  pose proof (Z.mod_pos_bound (tm b - tm a) i) as Hmb.
  split; intros Hal; lia.
Qed.

(** C9.  [generateTimeRange] is total, and no sequence it returns has more
    than 1440 elements.  When both end points parse, the start is not after
    the end and the interval is positive, its loop runs its body [n] times
    with [n <= (end - start) / interval + 1]: the test holds before each of
    the [n] runs and fails after the last, and the sequence returned is the
    complete list the loop has built, of length [n]. *)
Theorem generateTimeRange_iterations :
  (forall st en i, (List.length (generateTimeRange st en i) <= 1440)%nat) /\
  (forall st en i a b (Hpos : i > 0),
     parseTime st = Some a -> parseTime en = Some b -> tm a <= tm b ->
     let init := {| currentMinutes := tm a; times := [] |} in
     exists n,
       (forall k, (k < n)%nat ->
                  loop_cond (tm b) (Nat.iter k (loop_body i) init) = true) /\
       loop_cond (tm b) (Nat.iter n (loop_body i) init) = false /\
       range_loop (tm b) i Hpos init = Nat.iter n (loop_body i) init /\
       generateTimeRange st en i = times (range_loop (tm b) i Hpos init) /\
       List.length (generateTimeRange st en i) = n /\
       Z.of_nat n <= (tm b - tm a) / i + 1).
Proof.
  assert (Hlen : forall st en i a b,
            parseTime st = Some a -> parseTime en = Some b ->
            tm a <= tm b -> i > 0 ->
            List.length (generateTimeRange st en i) =
            S (Z.to_nat ((tm b - tm a) / i))).
  { intros st en i a b Ha Hb Hab Hi.
    rewrite (generateTimeRange_valid _ _ _ _ _ Ha Hb Hab Hi).
    apply length_slots. }
  split.
  - intros st en i.
    destruct (parseTime st) as [a|] eqn:Ha;
      [|rewrite generateTimeRange_invalid by auto; cbn; lia].
    destruct (parseTime en) as [b|] eqn:Hb;
      [|rewrite generateTimeRange_invalid by auto; cbn; lia].
    destruct (Z_le_gt_dec i 0) as [|Hi];
      [rewrite generateTimeRange_invalid by auto; cbn; lia|].
    destruct (Z_le_gt_dec (tm a) (tm b)) as [Hab|Hab];
      [|rewrite generateTimeRange_invalid
          by (right; right; right; now exists a, b); cbn; lia].
    rewrite (Hlen _ _ _ _ _ Ha Hb Hab Hi).
    pose proof (timeToMinutes_parsed _ _ Ha) as Ra.
    pose proof (timeToMinutes_parsed _ _ Hb) as Rb.
    assert ((tm b - tm a) / i <= 1439); [|lia].
    apply Z.lt_succ_r, Z.div_lt_upper_bound; nia.
  - intros st en i a b Hpos Ha Hb Hab init.
    exists (iterations (tm b) i (tm a)).
    assert (En : iterations (tm b) i (tm a) =
                 S (Z.to_nat ((tm b - tm a) / i))).
    { unfold iterations. destruct (tm a <=? tm b) eqn:L; [reflexivity|lia]. }
    split; [intros k Hk; unfold init; rewrite loop_cond_iter by assumption;
            now apply Nat.ltb_lt|].
    split; [unfold init; rewrite loop_cond_iter by assumption;
            apply Nat.ltb_irrefl|].
    split; [apply range_loop_iter|].
    split.
    + rewrite (generateTimeRange_valid _ _ _ _ _ Ha Hb Hab Hpos).
      pose proof (timeToMinutes_parsed _ _ Ha) as Ra.
      rewrite range_loop_iter. unfold init. rewrite iter_body.
      cbn [times currentMinutes app]. rewrite En. unfold slots.
      apply map_ext_in. intros k _. symmetry.
      apply slot_time_of_minutes. nia.
    + rewrite (Hlen _ _ _ _ _ Ha Hb Hab Hpos), En.
      split; [reflexivity|].
      assert (0 <= (tm b - tm a) / i) by (apply Z.div_pos; lia). lia.
Qed.

Lemma generateTimeRange_iterations_witness :
  exists n : nat,
    List.length (generateTimeRange "9:00am" "9:40am" 15) = n /\
    Z.of_nat n <= (580 - 540) / 15 + 1.
Proof.
  destruct (proj2 generateTimeRange_iterations "9:00am" "9:40am" 15
              {| hours := 9; minutes := 0 |} {| hours := 9; minutes := 40 |}
              eq_refl eq_refl eq_refl ltac:(cbn; lia))
    as (n & _ & _ & _ & _ & L & B).
  exists n. split; [exact L | exact B].
Defined.

(** ** Further properties of the time utilities *)




Lemma parseTime_of_cleaned s : parseTime (cleanTimeString s) = parseTime s.
Proof.
  unfold parseTime. fold (cleanTimeString (cleanTimeString s)).
  fold (cleanTimeString s). now rewrite cleanTimeString_idem.
Qed.

Lemma time_of_minutes_timeToMinutes v :
  0 <= minutes v <= 59 -> time_of_minutes (timeToMinutes v) = v.
Proof.
  destruct v as [h m]. unfold time_of_minutes, timeToMinutes.
  cbn [hours minutes]. intros Hm.
  f_equal; Z.div_mod_to_equations; lia.
Qed.

(** A formatted time of the day is in the form that [cleanTimeString]
    produces. *)
Lemma cleanTimeString_formatTime v :
  0 <= hours v <= 23 -> 0 <= minutes v <= 59 ->
  cleanTimeString (formatTime v) = formatTime v.
Proof.
  intros Hh Hm. rewrite formatTime_eq_spec by assumption.
  destruct v as [h m]. cbn [hours minutes] in *.
  unfold formatTime_spec. cbn [hours minutes].
  destruct (two_digits_shape m) as (a & b & -> & Ha & Hb & _); [lia|].
  assert (Hdh : 1 <= displayed_hour h <= 12).
  { unfold displayed_hour. destruct ((h =? 0) || (h =? 12)) eqn:E; [lia|].
    Z.div_mod_to_equations. lia. }
  assert (Hp : period_of h = "am" \/ period_of h = "pm").
  { unfold period_of. destruct (h <? 12); auto. }
  apply cleanTimeString_plain. unfold unpadded.
  destruct (displayed_hour h <? 10) eqn:L.
  - destruct (digit_char_digit (displayed_hour h)) as [Hd _]; [lia|].
    destruct Hp as [-> | ->]; cbn; all_plain.
  - destruct (two_digits_shape (displayed_hour h))
      as (x & y & -> & Hx & Hy & _); [lia|].
    destruct Hp as [-> | ->]; cbn; all_plain.
Qed.

Lemma formatTime_inj v w :
  0 <= hours v <= 23 -> 0 <= minutes v <= 59 ->
  0 <= hours w <= 23 -> 0 <= minutes w <= 59 ->
  formatTime v = formatTime w -> v = w.
Proof.
  intros Hv Hv' Hw Hw' E.
  pose proof (parse_format v Hv Hv') as Pv.
  pose proof (parse_format w Hw Hw') as Pw.
  rewrite E in Pv. congruence.
Qed.


(** X2.  Every value that [parseTime] returns is a time of the day: its
    hour is in 0..23, its minute in 0..59, and [timeToMinutes] of it in
    0..1439. *)
Theorem parseTime_time_of_day s v :
  parseTime s = Some v ->
  0 <= hours v <= 23 /\ 0 <= minutes v <= 59 /\
  0 <= timeToMinutes v <= 1439.
Proof.
  intros H. pose proof (parseTime_range _ _ H).
  pose proof (timeToMinutes_parsed _ _ H). tauto.
Qed.

Lemma parseTime_time_of_day_witness :
  0 <= 23 <= 23 /\ 0 <= 59 <= 59 /\
  0 <= timeToMinutes {| hours := 23; minutes := 59 |} <= 1439.
Proof.
  exact (parseTime_time_of_day "11:59 PM" {| hours := 23; minutes := 59 |}
           eq_refl).
Defined.



(** X4.  Formatting the value of any text that parses gives a text that is
    valid, that [cleanTimeString] leaves as it is, and that parses to the
    same value: parsing then formatting puts a time in its display
    form. *)
Theorem formatTime_of_parsed s v :
  parseTime s = Some v ->
  isValidTime (formatTime v) = true /\
  cleanTimeString (formatTime v) = formatTime v /\
  parseTime (formatTime v) = Some v.
Proof.
  intros H. apply parseTime_range in H as [Hh Hm].
  pose proof (parse_format v Hh Hm) as P.
  unfold isValidTime. rewrite P.
  split; [reflexivity|]. split; [now apply cleanTimeString_formatTime|].
  reflexivity.
Qed.

Lemma formatTime_of_parsed_witness :
  parseTime (formatTime {| hours := 14; minutes := 30 |}) =
  Some {| hours := 14; minutes := 30 |}.
Proof.
  apply (formatTime_of_parsed "14:30" {| hours := 14; minutes := 30 |}
           eq_refl).
Defined.

(** X5.  Two different times of the day never have the same display
    string. *)
Theorem formatTime_injective v w :
  0 <= hours v <= 23 -> 0 <= minutes v <= 59 ->
  0 <= hours w <= 23 -> 0 <= minutes w <= 59 ->
  formatTime v = formatTime w -> v = w.
Proof. apply formatTime_inj. Qed.

Lemma formatTime_injective_witness :
  {| hours := 0; minutes := 5 |} = {| hours := 0; minutes := 5 |}.
Proof.
  apply (formatTime_injective {| hours := 0; minutes := 5 |}
           {| hours := 0; minutes := 5 |});
    cbn; solve [lia | reflexivity].
Defined.

Lemma digit_char_value d : digit d -> digit_char (Js.digit_value d) = d.
Proof.
  intros _. unfold digit_char, Js.digit_value, Js.code.
  replace (48 + (Z.of_N (N_of_ascii d) - 48)) with (Z.of_N (N_of_ascii d))
    by lia.
  now rewrite N2Z.id, ascii_N_embedding.
Qed.

Lemma digit_value_range d : digit d -> 0 <= Js.digit_value d <= 9.
Proof.
  unfold digit, Js.is_digit, Js.in_range, Js.digit_value. lia.
Qed.

Lemma digit_value_pos d : digit d -> d <> "0"%char -> 1 <= Js.digit_value d.
Proof.
  intros Hd Hz. pose proof (digit_value_range d Hd).
  destruct (Z.eq_dec (Js.digit_value d) 0) as [E|]; [|lia].
  exfalso. apply Hz. rewrite <- (digit_char_value d Hd), E. reflexivity.
Qed.

Lemma two_digits_digits a b :
  digit a -> digit b ->
  two_digits (10 * Js.digit_value a + Js.digit_value b) =
  String a (String b "").
Proof.
  intros Ha Hb. pose proof (digit_value_range a Ha).
  pose proof (digit_value_range b Hb). unfold two_digits.
  replace ((10 * Js.digit_value a + Js.digit_value b) / 10)
    with (Js.digit_value a) by (Z.div_mod_to_equations; lia).
  replace ((10 * Js.digit_value a + Js.digit_value b) mod 10)
    with (Js.digit_value b) by (Z.div_mod_to_equations; lia).
  now rewrite !digit_char_value.
Qed.

(** A text of the 12-hour form whose hour has no leading zero is the
    display string of the time it denotes. *)
Lemma formatTime_spec_of_form c h m p :
  Form12 c h m p -> 1 <= h <= 12 -> 0 <= m <= 59 ->
  String.get 0 c <> Some "0"%char ->
  formatTime_spec {| hours := hour_of_day h p; minutes := m |} = c.
Proof.
  intros (body & -> & F & Hp) Hh Hm H0.
  unfold formatTime_spec. cbn [hours minutes].
  assert (displayed_hour (hour_of_day h p) = h /\
          period_of (hour_of_day h p) = p) as [-> ->].
  { unfold displayed_hour, period_of, hour_of_day.
    destruct Hp as [-> | ->]; cbn [String.eqb Ascii.eqb Bool.eqb];
      destruct (h =? 12) eqn:E; cbn;
      repeat match goal with
        | |- context [if ?b then _ else _] => destruct b eqn:?
        end; split; try reflexivity; Z.div_mod_to_equations; lia. }
  destruct F as [d m1 m2 Hd H1 H2 | d1 d2 m1 m2 Hd1 Hd2 H1 H2].
  - pose proof (digit_value_range d Hd).
    rewrite two_digits_digits by assumption. unfold unpadded.
    destruct (Js.digit_value d <? 10) eqn:L; [|lia].
    now rewrite digit_char_value.
  - assert (d1 <> "0"%char) as Hz by (intros ->; now apply H0).
    pose proof (digit_value_pos d1 Hd1 Hz).
    pose proof (digit_value_range d2 Hd2).
    rewrite (two_digits_digits m1 m2) by assumption. unfold unpadded.
    destruct (10 * Js.digit_value d1 + Js.digit_value d2 <? 10) eqn:L; [lia|].
    now rewrite two_digits_digits.
Qed.

(** A display string is of the 12-hour form and does not start with a
    zero. *)
Lemma formatTime_spec_form v :
  0 <= hours v <= 23 -> 0 <= minutes v <= 59 ->
  (Form12 (formatTime_spec v) (displayed_hour (hours v)) (minutes v)
     (period_of (hours v)) /\
   1 <= displayed_hour (hours v) <= 12) /\
  String.get 0 (formatTime_spec v) <> Some "0"%char.
Proof.
  destruct v as [h m]. cbn [hours minutes]. intros Hh Hm.
  unfold formatTime_spec. cbn [hours minutes].
  destruct (two_digits_shape m) as (a & b & -> & Ha & Hb & Em); [lia|].
  assert (Hdh : 1 <= displayed_hour h <= 12).
  { unfold displayed_hour. destruct ((h =? 0) || (h =? 12)) eqn:E; [lia|].
    Z.div_mod_to_equations. lia. }
  assert (Hp : period_of h = "am" \/ period_of h = "pm").
  { unfold period_of. destruct (h <? 12); auto. }
  unfold unpadded. destruct (displayed_hour h <? 10) eqn:L.
  - destruct (digit_char_digit (displayed_hour h)) as [Hd Ed]; [lia|].
    split.
    + split; [|exact Hdh].
      exists (String (digit_char (displayed_hour h))
                (String ":" (String a (String b "")))).
      split; [reflexivity|]. split; [|exact Hp].
      rewrite <- Ed at 2. rewrite <- Em. now constructor.
    + cbn. intros [= E]. rewrite E in Ed. cbn in Ed. lia.
  - destruct (two_digits_shape (displayed_hour h))
      as (x & y & -> & Hx & Hy & Exy); [lia|].
    split.
    + split; [|exact Hdh].
      exists (String x (String y (String ":" (String a (String b ""))))).
      split; [reflexivity|]. split; [|exact Hp].
      rewrite <- Exy, <- Em. now constructor.
    + cbn. intros [= ->]. pose proof (digit_value_range y Hy).
      cbn in Exy. lia.
Qed.

(** X6.  When a text parses, formatting its value gives back the cleaned
    text exactly when the cleaned text is of the 12-hour form and does not
    start with a zero; a 24-hour text and a zero-padded hour come back in
    another form. *)
Theorem formatTime_parseTime_canonical s v :
  parseTime s = Some v ->
  (formatTime v = cleanTimeString s <->
   (exists h m p, Form12 (cleanTimeString s) h m p) /\
   String.get 0 (cleanTimeString s) <> Some "0"%char).
Proof.
  intros H. pose proof (parseTime_range _ _ H) as [Hh Hm].
  rewrite formatTime_eq_spec by assumption. split.
  - intros <-. destruct (formatTime_spec_form v Hh Hm) as [[F _] H0].
    split; [|exact H0]. do 3 eexists. exact F.
  - intros [(h & m & p & F) H0].
    apply parseTime_grammar in H
      as [(h' & m' & p' & F' & Bh & Bm & ->)|(h' & m' & F' & _)].
    + destruct (Form12_unique _ _ _ _ _ _ _ F F') as (-> & -> & ->).
      now apply formatTime_spec_of_form.
    + destruct (Form12_not_Form24 _ _ _ _ _ _ F F').
Qed.

Lemma formatTime_parseTime_canonical_witness :
  formatTime {| hours := 14; minutes := 30 |} = cleanTimeString "2:30 PM".
Proof.
  apply (proj2 (formatTime_parseTime_canonical "2:30 PM"
                  {| hours := 14; minutes := 30 |} eq_refl)).
  split; [|cbn; discriminate].
  exists 2, 30, "pm", "2:30". split; [reflexivity|]. split; [|now right].
  exact (Clock_H "2" "3" "0" eq_refl eq_refl eq_refl).
Defined.

(** X7.  A zero put before a one-character hour does not change what
    [parseTime] returns, whatever follows the colon. *)
Theorem parseTime_leading_zero s d rest :
  cleanTimeString s = String d (String ":" rest) ->
  parseTime (String "0" s) = parseTime s.
Proof.
  intros E. unfold parseTime.
  change (Js.replace_ws (Js.toLowerCase (String "0" s)))
    with (String "0" (cleanTimeString s)).
  fold (cleanTimeString s). rewrite E. clear E s.
  unfold exec, re12, re24. cbn -[Z.mul Z.add Z.ltb Z.gtb Z.eqb].
  repeat step_goal.
Qed.

Lemma parseTime_leading_zero_witness :
  parseTime "09:05 am" = parseTime "9:05 am".
Proof.
  apply (parseTime_leading_zero "9:05 am" "9" "05am"). reflexivity.
Defined.

(** ** Further properties of range generation *)

(** The two ways [generateTimeRange] returns. *)
Lemma generateTimeRange_cases st en i :
  generateTimeRange st en i = [] \/
  exists a b,
    parseTime st = Some a /\ parseTime en = Some b /\
    timeToMinutes a <= timeToMinutes b /\ i > 0 /\
    generateTimeRange st en i =
    slots (timeToMinutes a) i
      (S (Z.to_nat ((timeToMinutes b - timeToMinutes a) / i))).
Proof.
  destruct (parseTime st) as [a|] eqn:Ha;
    [|left; apply generateTimeRange_invalid; auto].
  destruct (parseTime en) as [b|] eqn:Hb;
    [|left; apply generateTimeRange_invalid; auto].
  destruct (Z_le_gt_dec i 0) as [|Hi];
    [left; apply generateTimeRange_invalid; auto|].
  destruct (Z_le_gt_dec (timeToMinutes a) (timeToMinutes b)) as [Hab|Hab];
    [|left; apply generateTimeRange_invalid; right; right; right;
      now exists a, b].
  right. exists a, b. repeat split; try assumption.
  now apply generateTimeRange_valid.
Qed.

Lemma In_slots s i n x :
  In x (slots s i n) <->
  exists k, (k < n)%nat /\
            x = formatTime (time_of_minutes (s + Z.of_nat k * i)).
Proof.
  unfold slots. rewrite in_map_iff. split.
  - intros (k & <- & Hk). apply in_seq in Hk. exists k. split; [lia|easy].
  - intros (k & Hk & ->). exists k. split; [easy|]. apply in_seq. lia.
Qed.

Lemma time_of_minutes_range c :
  0 <= c <= 1439 ->
  0 <= hours (time_of_minutes c) <= 23 /\
  0 <= minutes (time_of_minutes c) <= 59.
Proof.
  intros Hc. unfold time_of_minutes. cbn [hours minutes].
  Z.div_mod_to_equations. lia.
Qed.

(** The slots of a grid that stays within the day are display strings of
    times of the day. *)
Lemma slots_times s e i n x :
  0 <= s -> e <= 1439 -> i > 0 ->
  (forall k, (k < n)%nat -> s + Z.of_nat k * i <= e) ->
  In x (slots s i n) ->
  exists c, s <= c <= e /\ (c - s) mod i = 0 /\
            x = formatTime (time_of_minutes c).
Proof.
  intros Hs He Hi Hgrid Hx. apply In_slots in Hx as (k & Hk & ->).
  exists (s + Z.of_nat k * i). specialize (Hgrid k Hk).
  split; [nia|]. split; [|reflexivity].
  replace (s + Z.of_nat k * i - s) with (Z.of_nat k * i) by lia.
  apply Z.mod_mul. lia.
Qed.

Lemma NoDup_slots s i n :
  i > 0 ->
  (forall k, (k < n)%nat -> 0 <= s + Z.of_nat k * i <= 1439) ->
  NoDup (slots s i n).
Proof.
  intros Hi Hgrid. unfold slots.
  apply NoDup_map_NoDup_ForallPairs; [|apply seq_NoDup].
  intros j k Hj Hk E. apply in_seq in Hj, Hk.
  assert (Rj := Hgrid j ltac:(lia)). assert (Rk := Hgrid k ltac:(lia)).
  apply formatTime_inj in E; try (apply time_of_minutes_range; lia).
  apply (f_equal timeToMinutes) in E.
  rewrite !timeToMinutes_time_of_minutes in E. nia.
Qed.

(** X8.  Every option that [generateTimeRange] returns is a valid time
    text in the form that [cleanTimeString] produces, whatever the
    arguments are. *)
Theorem generateTimeRange_options_valid st en i :
  Forall (fun x => isValidTime x = true /\ cleanTimeString x = x)
    (generateTimeRange st en i).
Proof.
  destruct (generateTimeRange_cases st en i)
    as [-> | (a & b & Ha & Hb & Hab & Hi & ->)]; [constructor|].
  pose proof (timeToMinutes_parsed _ _ Ha) as Ra.
  pose proof (timeToMinutes_parsed _ _ Hb) as Rb.
  apply Forall_forall. intros x Hx.
  apply (slots_times _ (timeToMinutes b)) in Hx
    as (c & Hc & _ & ->); try lia;
    [|intros k Hk; now apply grid_bounds].
  destruct (time_of_minutes_range c) as [Hh Hm]; [lia|].
  unfold isValidTime. rewrite parse_format by assumption.
  split; [reflexivity | now apply cleanTimeString_formatTime].
Qed.

Lemma NoDup_generateTimeRange st en i : NoDup (generateTimeRange st en i).
Proof.
  destruct (generateTimeRange_cases st en i)
    as [-> | (a & b & Ha & Hb & Hab & Hi & ->)]; [constructor|].
  pose proof (timeToMinutes_parsed _ _ Ha) as Ra.
  pose proof (timeToMinutes_parsed _ _ Hb) as Rb.
  apply NoDup_slots; [assumption|].
  intros k Hk. apply grid_bounds in Hk; [nia | assumption..].
Qed.

(** X9.  No option occurs twice in what [generateTimeRange] returns. *)
Theorem generateTimeRange_NoDup st en i : NoDup (generateTimeRange st en i).
Proof. apply NoDup_generateTimeRange. Qed.

(** X10.  When both end points parse and the interval is positive, a time
    of the day is among the options exactly when it lies between the start
    and the end and its distance from the start is a multiple of the
    interval; and every option is the display string of such a time. *)
Theorem generateTimeRange_membership st en i a b :
  parseTime st = Some a -> parseTime en = Some b -> i > 0 ->
  (forall v,
     0 <= hours v <= 23 -> 0 <= minutes v <= 59 ->
     (In (formatTime v) (generateTimeRange st en i) <->
      timeToMinutes a <= timeToMinutes v <= timeToMinutes b /\
      (timeToMinutes v - timeToMinutes a) mod i = 0)) /\
  (forall x,
     In x (generateTimeRange st en i) ->
     exists v, 0 <= hours v <= 23 /\ 0 <= minutes v <= 59 /\
               x = formatTime v).
Proof.
  intros Ha Hb Hi.
  pose proof (timeToMinutes_parsed _ _ Ha) as Ra.
  pose proof (timeToMinutes_parsed _ _ Hb) as Rb.
  destruct (Z_le_gt_dec (timeToMinutes a) (timeToMinutes b)) as [Hab|Hab].
  2:{ rewrite generateTimeRange_invalid
        by (right; right; right; now exists a, b).
      split; [|intros x []]. intros v _ _. split; [intros []|lia]. }
  rewrite (generateTimeRange_valid _ _ _ _ _ Ha Hb Hab Hi).
  set (s := timeToMinutes a) in *. set (e := timeToMinutes b) in *.
  assert (Hgrid : forall k, (k < S (Z.to_nat ((e - s) / i)))%nat ->
                            s + Z.of_nat k * i <= e)
    by (intros k Hk; now apply grid_bounds).
  split.
  - intros v Hh Hm. split.
    + intros Hx. apply (slots_times _ e) in Hx as (c & Hc & Hmod & E);
        try lia; [|assumption].
      apply formatTime_inj in E; try assumption;
        try (apply time_of_minutes_range; lia).
      subst v. now rewrite timeToMinutes_time_of_minutes.
    + intros [Hc Hmod]. apply In_slots.
      apply Z.div_exact in Hmod; [|lia].
      assert (0 <= (timeToMinutes v - s) / i) by (apply Z.div_pos; lia).
      exists (Z.to_nat ((timeToMinutes v - s) / i)). split.
      * apply grid_bounds; [assumption..|]. rewrite Z2Nat.id by assumption.
        lia.
      * rewrite Z2Nat.id by assumption.
        replace (s + (timeToMinutes v - s) / i * i) with (timeToMinutes v)
          by lia.
        now rewrite time_of_minutes_timeToMinutes.
  - intros x Hx. apply (slots_times _ e) in Hx as (c & Hc & _ & ->);
      try lia; [|assumption].
    exists (time_of_minutes c).
    destruct (time_of_minutes_range c); [lia|]. auto.
Qed.

Lemma generateTimeRange_membership_witness :
  In (formatTime {| hours := 9; minutes := 30 |})
    (generateTimeRange "9:00am" "10:00am" 15).
Proof.
  apply (proj1 (generateTimeRange_membership "9:00am" "10:00am" 15
                  {| hours := 9; minutes := 0 |}
                  {| hours := 10; minutes := 0 |} eq_refl eq_refl eq_refl)
           {| hours := 9; minutes := 30 |}); cbn; lia.
Defined.

(** X11.  When both end points parse, the start is not after the end and
    the interval is greater than the distance between them, the only option
    is the start, in its display form; so it is when the start is the
    end. *)
Theorem generateTimeRange_single st en i a b :
  parseTime st = Some a -> parseTime en = Some b ->
  timeToMinutes a <= timeToMinutes b ->
  i > timeToMinutes b - timeToMinutes a ->
  generateTimeRange st en i = [formatTime a].
Proof.
  intros Ha Hb Hab Hi.
  rewrite (generateTimeRange_valid _ _ _ _ _ Ha Hb Hab) by lia.
  rewrite Z.div_small by lia. cbn. unfold slots. cbn.
  rewrite Z.add_0_r, time_of_minutes_timeToMinutes; [reflexivity|].
  apply (parseTime_range _ _ Ha).
Qed.

Lemma generateTimeRange_single_witness :
  generateTimeRange "09:00" "9:20am" 30 = ["9:00am"].
Proof.
  apply (generateTimeRange_single "09:00" "9:20am" 30
           {| hours := 9; minutes := 0 |} {| hours := 9; minutes := 20 |}
           eq_refl eq_refl); cbn; lia.
Defined.

(** X12.  Moving the end later only adds options at the end: the range up
    to an earlier end is a prefix of the range up to a later one. *)
Theorem generateTimeRange_prefix st en en' i a b b' :
  parseTime st = Some a -> parseTime en = Some b ->
  parseTime en' = Some b' ->
  timeToMinutes a <= timeToMinutes b ->
  timeToMinutes b <= timeToMinutes b' -> i > 0 ->
  exists more,
    generateTimeRange st en' i = (generateTimeRange st en i ++ more)%list.
Proof.
  intros Ha Hb Hb' Hab Hbb Hi.
  rewrite (generateTimeRange_valid _ _ _ _ _ Ha Hb Hab Hi).
  rewrite (generateTimeRange_valid _ _ _ _ _ Ha Hb') by lia.
  set (s := timeToMinutes a). set (e := timeToMinutes b).
  set (e' := timeToMinutes b').
  assert ((e - s) / i <= (e' - s) / i)
    by (apply Z.div_le_mono; unfold s, e, e'; lia).
  assert (0 <= (e - s) / i) by (apply Z.div_pos; unfold s, e; lia).
  set (n := S (Z.to_nat ((e - s) / i))).
  set (n' := S (Z.to_nat ((e' - s) / i))).
  assert (n' = (n + (n' - n))%nat) as -> by (unfold n, n'; lia).
  unfold slots. rewrite seq_app, map_app. eexists. reflexivity.
Qed.

Lemma generateTimeRange_prefix_witness :
  exists more,
    generateTimeRange "9:00am" "11:00am" 45 =
    (generateTimeRange "9:00am" "10:00am" 45 ++ more)%list.
Proof.
  apply (generateTimeRange_prefix "9:00am" "10:00am" "11:00am" 45
           {| hours := 9; minutes := 0 |} {| hours := 10; minutes := 0 |}
           {| hours := 11; minutes := 0 |} eq_refl eq_refl eq_refl);
    cbn; lia.
Defined.

(** X13.  The range does not change when its end points are replaced by
    the display strings of the times they denote: a 24-hour or a padded end
    point gives the range of its 12-hour form. *)
Theorem generateTimeRange_display_end_points st en i a b :
  parseTime st = Some a -> parseTime en = Some b ->
  generateTimeRange (formatTime a) (formatTime b) i =
  generateTimeRange st en i.
Proof.
  intros Ha Hb. unfold generateTimeRange.
  destruct (parseTime_range _ _ Ha), (parseTime_range _ _ Hb).
  rewrite !parse_format by assumption. now rewrite Ha, Hb.
Qed.

Lemma generateTimeRange_display_end_points_witness :
  generateTimeRange "1:00pm" "2:00pm" 30 =
  generateTimeRange "13:00" "14:00" 30.
Proof.
  apply (generateTimeRange_display_end_points "13:00" "14:00" 30
           {| hours := 13; minutes := 0 |} {| hours := 14; minutes := 0 |}
           eq_refl eq_refl).
Defined.

(** ** Further properties of filtering *)

Lemma append_nil_r s : s ++ "" = s.
Proof. induction s as [|c s IH]; cbn; [reflexivity | now rewrite IH]. Qed.



Lemma includes_refl s : Js.includes s s = true.
Proof.
  apply includes_substring. exists "", "". cbn. now rewrite append_nil_r.
Qed.


Lemma filter_idem {A} (f : A -> bool) l : filter f (filter f l) = filter f l.
Proof.
  induction l as [|x l IH]; cbn; [reflexivity|].
  destruct (f x) eqn:E; cbn; [rewrite E; now f_equal | assumption].
Qed.

Lemma filter_comm {A} (f g : A -> bool) l :
  filter f (filter g l) = filter g (filter f l).
Proof.
  induction l as [|x l IH]; cbn; [reflexivity|].
  destruct (g x) eqn:G, (f x) eqn:F; cbn; rewrite ?G, ?F, IH; reflexivity.
Qed.


(** [filterTimesByInput] as the one test it applies to each option. *)
Lemma filterTimesByInput_eq options input :
  filterTimesByInput options input =
  if String.eqb (cleanTimeString input) "" then options
  else
    filter
      (fun time =>
         Js.includes (cleanTimeString time) (cleanTimeString input))
      options.
Proof. reflexivity. Qed.

(** X14.  Filtering twice by the same input changes nothing more. *)
Theorem filterTimesByInput_idempotent options input :
  filterTimesByInput (filterTimesByInput options input) input =
  filterTimesByInput options input.
Proof.
  rewrite !filterTimesByInput_eq.
  destruct (String.eqb (cleanTimeString input) ""); [reflexivity|].
  apply filter_idem.
Qed.


(** X16.  Two filters can be applied in either order. *)
Theorem filterTimesByInput_commutes options a b :
  filterTimesByInput (filterTimesByInput options a) b =
  filterTimesByInput (filterTimesByInput options b) a.
Proof.
  rewrite !filterTimesByInput_eq.
  destruct (String.eqb (cleanTimeString a) ""),
    (String.eqb (cleanTimeString b) ""); try reflexivity.
  apply filter_comm.
Qed.

Lemma filterTimesByInput_keeps_typed_option_aux options input o :
  cleanTimeString input = cleanTimeString o -> In o options ->
  In o (filterTimesByInput options input).
Proof.
  intros E Ho. rewrite filterTimesByInput_eq.
  destruct (String.eqb (cleanTimeString input) ""); [assumption|].
  apply filter_In. split; [assumption|]. rewrite E. apply includes_refl.
Qed.

(** X17.  An option is kept whenever the input is that option, written in
    any case and with any spacing. *)
Theorem filterTimesByInput_keeps_typed_option options input o :
  cleanTimeString input = cleanTimeString o -> In o options ->
  In o (filterTimesByInput options input).
Proof. apply filterTimesByInput_keeps_typed_option_aux. Qed.

Lemma filterTimesByInput_keeps_typed_option_witness :
  In "9:30am" (filterTimesByInput ["9:00am"; "9:30am"] " 9:30 AM").
Proof.
  apply (filterTimesByInput_keeps_typed_option
           ["9:00am"; "9:30am"] " 9:30 AM" "9:30am").
  - reflexivity.
  - cbn. auto.
Defined.

Lemma length_append a b :
  String.length (a ++ b) = (String.length a + String.length b)%nat.
Proof. induction a as [|x a IH]; cbn; [reflexivity | now rewrite IH]. Qed.

(** A text of the 12-hour form holds no 24-hour text of an hour after
    12. *)
Lemma form12_has_no_afternoon_text s h' m' p' c h m pre post :
  Form12 s h' m' p' -> h' <= 12 -> Clock c h m -> 13 <= h ->
  s = pre ++ c ++ post -> False.
Proof.
  intros (body & -> & F' & Hp) Hh' F Hh E.
  pose proof (f_equal String.length E) as L.
  rewrite !length_append in L.
  destruct F as [d m1 m2 Hd H1 H2 | d1 d2 m1 m2 Hd1 Hd2 H1 H2];
    [pose proof (digit_value_range d Hd); lia|].
  destruct F' as [x a b Hx Ha Hb | x y a b Hx Hy Ha Hb];
    destruct Hp as [-> | ->];
    destruct pre as [|p1 [|p2 [|p3 pre]]]; cbn in E, L; try lia;
    repeat match type of E with
      | String _ _ = String _ _ =>
          let E1 := fresh "E" in injection E as E1 E; try subst
      | _ => discriminate E
      end;
    unfold digit in *; try absurd_digit; try lia.
Qed.

(** What [generateTimeRange] returns holds display strings of times of the
    day only. *)
Lemma generateTimeRange_elements st en i x :
  In x (generateTimeRange st en i) ->
  exists v, 0 <= hours v <= 23 /\ 0 <= minutes v <= 59 /\ x = formatTime v.
Proof.
  destruct (generateTimeRange_cases st en i)
    as [-> | (a & b & Ha & Hb & Hab & Hi & ->)]; [intros []|].
  pose proof (timeToMinutes_parsed _ _ Ha) as Ra.
  pose proof (timeToMinutes_parsed _ _ Hb) as Rb.
  intros Hx. apply (slots_times _ (timeToMinutes b)) in Hx
    as (c & Hc & _ & ->); try lia;
    [|intros k Hk; now apply grid_bounds].
  exists (time_of_minutes c).
  destruct (time_of_minutes_range c); [lia|]. auto.
Qed.

Lemma filter_nil_of_false {A} (f : A -> bool) l :
  (forall x, In x l -> f x = false) -> filter f l = [].
Proof.
  induction l as [|x l IH]; cbn; [reflexivity|]. intros H.
  rewrite (H x) by auto. apply IH. auto.
Qed.

(** X18.  The filter compares texts, not times: an input that is the
    24-hour text of an hour after 12 keeps none of the options that
    [generateTimeRange] returns, even when it is a valid time and that time
    is among the options. *)
Theorem filterTimesByInput_afternoon_24_hour st en i input h m :
  Form24 (cleanTimeString input) h m -> 13 <= h ->
  filterTimesByInput (generateTimeRange st en i) input = [].
Proof.
  intros F Hh. rewrite filterTimesByInput_eq.
  destruct (String.eqb_spec (cleanTimeString input) "") as [E|_];
    [rewrite E in F; inversion F|].
  apply filter_nil_of_false. intros x Hx.
  apply generateTimeRange_elements in Hx as (v & Hv & Hv' & ->).
  rewrite cleanTimeString_formatTime, formatTime_eq_spec by assumption.
  destruct (Js.includes _ _) eqn:I; [exfalso|reflexivity].
  apply includes_substring in I as (pre & post & E).
  destruct (formatTime_spec_form v Hv Hv') as [[F12 Hdh] _].
  exact (form12_has_no_afternoon_text _ _ _ _ _ _ _ _ _
           F12 (proj2 Hdh) F Hh E).
Qed.

Lemma filterTimesByInput_afternoon_24_hour_witness :
  filterTimesByInput (generateTimeRange "2:00pm" "3:00pm" 30) "14:30" = [].
Proof.
  apply (filterTimesByInput_afternoon_24_hour
           "2:00pm" "3:00pm" 30 "14:30" 14 30); [|lia].
  exact (Clock_HH "1" "4" "3" "0" eq_refl eq_refl eq_refl eq_refl).
Defined.

(** ** Properties of the component logic *)

(** The expectations of [src/TimePicker.test.tsx] on the keyboard,
    evaluated on the handlers: after a focus, ArrowDown highlights option
    0, a second one option 1, ArrowUp option 0 again; Enter after one
    ArrowDown reports 9:00am; Escape closes the list. *)
Example test_keyboard_navigation :
  let p := {| TimePicker.value := ""; TimePicker.minTime := "9:00am";
              TimePicker.maxTime := "9:30am"; TimePicker.interval := 30;
              TimePicker.error := false; TimePicker.disabled := false |} in
  let key k st := fst (TimePicker.handleKeyDown p k st) in
  let focused := fst (TimePicker.handleInputFocus TimePicker.initial) in
  TimePicker.dropdownShown p focused = true /\
  TimePicker.highlightedIndex (key "ArrowDown" focused) = 0 /\
  TimePicker.highlightedIndex (key "ArrowDown" (key "ArrowDown" focused)) = 1 /\
  TimePicker.highlightedIndex
    (key "ArrowUp" (key "ArrowDown" (key "ArrowDown" focused))) = 0 /\
  snd (TimePicker.handleKeyDown p "Enter" (key "ArrowDown" focused)) =
    [TimePicker.preventDefault; TimePicker.onChange (Some "9:00am");
     TimePicker.focus] /\
  TimePicker.dropdownShown p (key "Escape" focused) = false.
Proof. repeat split; reflexivity. Qed.


Section Component.

Import TimePicker.

Variable p : props.

Lemma filteredOptions_incl st : incl (filteredOptions p st) (timeOptions p).
Proof.
  unfold filteredOptions. destruct (_ || _); [apply incl_refl|].
  rewrite filterTimesByInput_eq.
  destruct (String.eqb _ ""); [apply incl_refl | apply incl_filter].
Qed.

Lemma filteredOptions_NoDup st : NoDup (filteredOptions p st).
Proof.
  unfold filteredOptions, timeOptions.
  destruct (_ || _); [apply NoDup_generateTimeRange|].
  rewrite filterTimesByInput_eq.
  destruct (String.eqb _ "");
    [|apply NoDup_filter]; apply NoDup_generateTimeRange.
Qed.

Lemma length_filteredOptions st :
  (List.length (filteredOptions p st) <= List.length (timeOptions p))%nat.
Proof.
  apply NoDup_incl_length;
    [apply filteredOptions_NoDup | apply filteredOptions_incl].
Qed.

Lemma timeOptions_clean x :
  In x (timeOptions p) -> isValidTime x = true /\ cleanTimeString x = x.
Proof.
  intros Hx. unfold timeOptions in Hx.
  apply generateTimeRange_elements in Hx as (v & Hv & Hv' & ->).
  unfold isValidTime. rewrite parse_format by assumption.
  split; [reflexivity | now apply cleanTimeString_formatTime].
Qed.

Lemma filter_eqb_NoDup c l :
  NoDup l ->
  (In c l -> filter (String.eqb c) l = [c]) /\
  (~ In c l -> filter (String.eqb c) l = []).
Proof.
  induction 1 as [|x l Hx Hl [IH1 IH2]]; cbn; [tauto|].
  destruct (String.eqb_spec c x) as [<-|N].
  - split; [|tauto]. intros _. now rewrite IH2.
  - split; intros H.
    + apply IH1. destruct H; [congruence|assumption].
    + apply IH2. tauto.
Qed.

(** What the state setters leave of the options. *)
Lemma filteredOptions_same st st' :
  hasInteracted st' = hasInteracted st ->
  filteredOptions p st' = filteredOptions p st.
Proof. unfold filteredOptions. now intros ->. Qed.

Lemma at_index_in l i :
  0 <= i < Z.of_nat (List.length l) ->
  exists x, at_index l i = Some x /\ In x l.
Proof.
  intros Hi. unfold at_index.
  destruct (nth_error l (Z.to_nat i)) as [x|] eqn:E.
  - exists x. split; [reflexivity|]. eapply nth_error_In, E.
  - apply nth_error_None in E. lia.
Qed.

End Component.

(** X19.  A value that is one of the options never shows the validation
    error: whatever the state, the error is shown only if the [error] prop
    asks for it. *)
Theorem showError_of_option p st :
  In (TimePicker.value p) (TimePicker.timeOptions p) ->
  TimePicker.showError p st = TimePicker.error p.
Proof.
  intros H. apply timeOptions_clean in H as [V _].
  unfold TimePicker.showError. rewrite V.
  now rewrite !andb_false_r, orb_false_r.
Qed.

Lemma showError_of_option_witness :
  TimePicker.showError
    {| TimePicker.value := "9:30am"; TimePicker.minTime := "9:00am";
       TimePicker.maxTime := "10:00am"; TimePicker.interval := 30;
       TimePicker.error := false; TimePicker.disabled := false |}
    {| TimePicker.isOpen := true; TimePicker.highlightedIndex := -1;
       TimePicker.hasInteracted := true |} = false.
Proof.
  apply (showError_of_option
           {| TimePicker.value := "9:30am"; TimePicker.minTime := "9:00am";
              TimePicker.maxTime := "10:00am"; TimePicker.interval := 30;
              TimePicker.error := false; TimePicker.disabled := false |}).
  vm_compute. right. left. reflexivity.
Defined.

(** X20.  Among the options that are listed, at most one is marked as the
    selected one.  If the cleaned value is an option, that option is listed
    and is the one marked; otherwise none is. *)
Theorem optionSelected_unique p st :
  (In (cleanTimeString (TimePicker.value p)) (TimePicker.timeOptions p) ->
   filter (TimePicker.optionSelected p) (TimePicker.filteredOptions p st) =
   [cleanTimeString (TimePicker.value p)]) /\
  (~ In (cleanTimeString (TimePicker.value p)) (TimePicker.timeOptions p) ->
   filter (TimePicker.optionSelected p) (TimePicker.filteredOptions p st) =
   []).
Proof.
  set (c := cleanTimeString (TimePicker.value p)).
  assert (E : filter (TimePicker.optionSelected p)
                (TimePicker.filteredOptions p st) =
              filter (String.eqb c) (TimePicker.filteredOptions p st)).
  { apply filter_ext_in. intros x Hx.
    apply filteredOptions_incl, timeOptions_clean in Hx as [_ Hx].
    unfold TimePicker.optionSelected. now rewrite Hx. }
  rewrite E.
  destruct (filter_eqb_NoDup c _ (filteredOptions_NoDup p st)) as [Y N].
  split; intros H.
  - apply Y. unfold TimePicker.filteredOptions.
    destruct (_ || _); [assumption|].
    apply filterTimesByInput_keeps_typed_option_aux; [|assumption].
    unfold c. now rewrite cleanTimeString_idem.
  - apply N. intros Hin. apply H. now apply (filteredOptions_incl p st).
Qed.

Lemma optionSelected_unique_witness :
  filter
    (TimePicker.optionSelected
       {| TimePicker.value := " 9:30 AM"; TimePicker.minTime := "9:00am";
          TimePicker.maxTime := "10:00am"; TimePicker.interval := 30;
          TimePicker.error := false; TimePicker.disabled := false |})
    (TimePicker.filteredOptions
       {| TimePicker.value := " 9:30 AM"; TimePicker.minTime := "9:00am";
          TimePicker.maxTime := "10:00am"; TimePicker.interval := 30;
          TimePicker.error := false; TimePicker.disabled := false |}
       TimePicker.initial) = ["9:30am"].
Proof.
  apply (proj1 (optionSelected_unique
                  {| TimePicker.value := " 9:30 AM";
                     TimePicker.minTime := "9:00am";
                     TimePicker.maxTime := "10:00am";
                     TimePicker.interval := 30;
                     TimePicker.error := false;
                     TimePicker.disabled := false |} TimePicker.initial)).
  vm_compute. right. left. reflexivity.
Defined.

(** X21.  While options are listed and the highlighted index is -1 or the
    index of one of them, a key press keeps it so, whatever the key is; and
    when the press selects, it reports one of the listed options, never
    [undefined]. *)
Theorem handleKeyDown_keeps_highlight p key st :
  TimePicker.filteredOptions p st <> [] ->
  -1 <= TimePicker.highlightedIndex st <
    Z.of_nat (List.length (TimePicker.filteredOptions p st)) ->
  let st' := fst (TimePicker.handleKeyDown p key st) in
  TimePicker.filteredOptions p st' <> [] /\
  -1 <= TimePicker.highlightedIndex st' <
    Z.of_nat (List.length (TimePicker.filteredOptions p st')) /\
  forall t,
    In (TimePicker.onChange t) (snd (TimePicker.handleKeyDown p key st)) ->
    exists x, t = Some x /\ In x (TimePicker.filteredOptions p st).
Proof.
  intros Hne Hhi.
  set (l := TimePicker.filteredOptions p st) in *.
  assert (Hlen : 0 < Z.of_nat (List.length l))
    by (destruct l; [contradiction | cbn; lia]).
  assert (Same : forall s',
            TimePicker.hasInteracted s' = TimePicker.hasInteracted st ->
            -1 <= TimePicker.highlightedIndex s' < Z.of_nat (List.length l) ->
            TimePicker.filteredOptions p s' <> [] /\
            -1 <= TimePicker.highlightedIndex s' <
              Z.of_nat (List.length (TimePicker.filteredOptions p s'))).
  { intros s' Hs Hi. now rewrite (filteredOptions_same p st s' Hs). }
  assert (NoCall : forall calls,
            (forall t, ~ In (TimePicker.onChange t) calls) ->
            forall t, In (TimePicker.onChange t) calls ->
                      exists x, t = Some x /\ In x l)
    by (intros calls H t Ht; destruct (H t Ht)).
  unfold TimePicker.handleKeyDown. fold l.
  destruct (TimePicker.disabled p).
  { cbn. split; [|split]; try apply Same; auto. intros t []. }
  destruct (String.eqb key "ArrowDown").
  { destruct (negb (TimePicker.isOpen st)); cbn [fst snd].
    - destruct (Same (TimePicker.setIsOpen true st)) as [A B]; auto.
      repeat split; try assumption; [apply B..|].
      apply NoCall. intros t [H|[]]. discriminate.
    - destruct (Same (TimePicker.setHighlightedIndex
                        (fun prev =>
                           if prev <? Z.of_nat (List.length l) - 1
                           then prev + 1 else 0) st)) as [A B]; auto.
      { cbn. destruct (_ <? _) eqn:E; lia. }
      repeat split; try assumption; [apply B..|].
      apply NoCall. intros t [H|[]]. discriminate. }
  destruct (String.eqb key "ArrowUp").
  { destruct (negb (TimePicker.isOpen st)); cbn [fst snd].
    - destruct (Same (TimePicker.setIsOpen true st)) as [A B]; auto.
      repeat split; try assumption; [apply B..|].
      apply NoCall. intros t [H|[]]. discriminate.
    - destruct (Same (TimePicker.setHighlightedIndex
                        (fun prev =>
                           if prev >? 0 then prev - 1
                           else Z.of_nat (List.length l) - 1) st))
        as [A B]; auto.
      { cbn. destruct (_ >? _) eqn:E; lia. }
      repeat split; try assumption; [apply B..|].
      apply NoCall. intros t [H|[]]. discriminate. }
  destruct (String.eqb key "Enter").
  { destruct (TimePicker.isOpen st && (TimePicker.highlightedIndex st >=? 0))
      eqn:Sel.
    - apply andb_true_iff in Sel as [_ Sel].
      destruct (at_index_in l (TimePicker.highlightedIndex st))
        as (x & Ex & Hx); [lia|].
      cbn [TimePicker.handleOptionSelect fst snd].
      pose proof (length_filteredOptions p st) as Hle. fold l in Hle.
      assert (TimePicker.filteredOptions p
                (TimePicker.setHasInteracted false
                   (TimePicker.setIsOpen false st)) = TimePicker.timeOptions p)
        as -> by (unfold TimePicker.filteredOptions; cbn;
                  now rewrite orb_true_r).
      split; [intros E; rewrite E in Hle; cbn in Hle; lia|].
      split; [cbn; lia|].
      intros t [H|[H|[H|[]]]]; try discriminate.
      injection H as <-. now exists x.
    - destruct (negb (TimePicker.isOpen st)); cbn [fst snd].
      + destruct (Same (TimePicker.setIsOpen true st)) as [A B]; auto.
        repeat split; try assumption; [apply B..|].
        apply NoCall. intros t [H|[]]. discriminate.
      + destruct (Same st) as [A B]; auto.
        repeat split; try assumption; [apply B..|].
        apply NoCall. intros t [H|[]]. discriminate. }
  destruct (String.eqb key "Escape").
  { cbn [fst snd].
    destruct (Same (TimePicker.setIsOpen false st)) as [A B]; auto.
    repeat split; try assumption; [apply B..|].
    apply NoCall. intros t [H|[]]. discriminate. }
  destruct (String.eqb key "Tab"); cbn [fst snd].
  - destruct (Same (TimePicker.setIsOpen false st)) as [A B]; auto.
    repeat split; try assumption; [apply B..|]. intros t [].
  - destruct (Same st) as [A B]; auto.
    repeat split; try assumption; [apply B..|]. intros t [].
Qed.

Lemma handleKeyDown_keeps_highlight_witness :
  exists x,
    Some "9:30am" = Some x /\
    In x
      (TimePicker.filteredOptions
         {| TimePicker.value := ""; TimePicker.minTime := "9:00am";
            TimePicker.maxTime := "10:00am"; TimePicker.interval := 30;
            TimePicker.error := false; TimePicker.disabled := false |}
         {| TimePicker.isOpen := true; TimePicker.highlightedIndex := 1;
            TimePicker.hasInteracted := false |}).
Proof.
  pose (p := {| TimePicker.value := ""; TimePicker.minTime := "9:00am";
                TimePicker.maxTime := "10:00am"; TimePicker.interval := 30;
                TimePicker.error := false; TimePicker.disabled := false |}).
  pose (st := {| TimePicker.isOpen := true; TimePicker.highlightedIndex := 1;
                 TimePicker.hasInteracted := false |}).
  assert (E : TimePicker.filteredOptions p st =
              ["9:00am"; "9:30am"; "10:00am"]) by reflexivity.
  destruct (handleKeyDown_keeps_highlight p "Enter" st) as (_ & _ & H).
  - rewrite E. discriminate.
  - rewrite E. cbn. lia.
  - apply H. vm_compute. right. left. reflexivity.
Defined.

(** X22.  In an open list with an option highlighted, ArrowUp undoes
    ArrowDown and ArrowDown undoes ArrowUp: the highlight wraps around at
    both ends.  From no highlight, ArrowDown goes to the first option and
    ArrowUp to the last. *)
Theorem handleKeyDown_arrows p st :
  TimePicker.disabled p = false -> TimePicker.isOpen st = true ->
  let len := Z.of_nat (List.length (TimePicker.filteredOptions p st)) in
  let down s := fst (TimePicker.handleKeyDown p "ArrowDown" s) in
  let up s := fst (TimePicker.handleKeyDown p "ArrowUp" s) in
  (0 <= TimePicker.highlightedIndex st < len ->
   up (down st) = st /\ down (up st) = st) /\
  (0 < len -> TimePicker.highlightedIndex st = -1 ->
   TimePicker.highlightedIndex (down st) = 0 /\
   TimePicker.highlightedIndex (up st) = len - 1).
Proof.
  intros Hd Ho len down up. destruct st as [o hi inter]. cbn in Ho. subst o.
  unfold down, up, TimePicker.handleKeyDown. rewrite Hd.
  cbn -[TimePicker.filteredOptions Z.of_nat Z.sub Z.add].
  change (TimePicker.filteredOptions p _)
    with (TimePicker.filteredOptions p
            {| TimePicker.isOpen := true; TimePicker.highlightedIndex := hi;
               TimePicker.hasInteracted := inter |}).
  fold len. clearbody len. clear down up.
  unfold TimePicker.setHighlightedIndex.
  cbn [TimePicker.isOpen TimePicker.highlightedIndex TimePicker.hasInteracted].
  split.
  - intros Hhi. split; f_equal.
    + destruct (hi <? len - 1) eqn:A.
      * destruct (hi + 1 >? 0) eqn:B; lia.
      * destruct (0 >? 0) eqn:B; lia.
    + destruct (hi >? 0) eqn:A.
      * destruct (hi - 1 <? len - 1) eqn:B; lia.
      * destruct (len - 1 <? len - 1) eqn:B; lia.
  - intros Hlen ->. split.
    + destruct (-1 <? len - 1) eqn:A; lia.
    + reflexivity.
Qed.

Lemma handleKeyDown_arrows_witness :
  fst (TimePicker.handleKeyDown
         {| TimePicker.value := ""; TimePicker.minTime := "9:00am";
            TimePicker.maxTime := "10:00am"; TimePicker.interval := 30;
            TimePicker.error := false; TimePicker.disabled := false |}
         "ArrowUp"
         (fst (TimePicker.handleKeyDown
                 {| TimePicker.value := ""; TimePicker.minTime := "9:00am";
                    TimePicker.maxTime := "10:00am";
                    TimePicker.interval := 30;
                    TimePicker.error := false;
                    TimePicker.disabled := false |}
                 "ArrowDown"
                 {| TimePicker.isOpen := true;
                    TimePicker.highlightedIndex := 2;
                    TimePicker.hasInteracted := false |}))) =
  {| TimePicker.isOpen := true; TimePicker.highlightedIndex := 2;
     TimePicker.hasInteracted := false |}.
Proof.
  pose (p := {| TimePicker.value := ""; TimePicker.minTime := "9:00am";
                TimePicker.maxTime := "10:00am"; TimePicker.interval := 30;
                TimePicker.error := false; TimePicker.disabled := false |}).
  pose (st := {| TimePicker.isOpen := true; TimePicker.highlightedIndex := 2;
                 TimePicker.hasInteracted := false |}).
  destruct (handleKeyDown_arrows p st eq_refl eq_refl) as [H _].
  destruct H as [H _]; [|exact H].
  assert (E : TimePicker.filteredOptions p st =
              ["9:00am"; "9:30am"; "10:00am"]) by reflexivity.
  rewrite E. cbn. lia.
Defined.

(** X23.  When no option is listed, the open component still moves the
    highlight: ArrowDown takes it from -1 to 0, an index past the end of
    the empty list, and Enter then reports [undefined] through [onChange];
    ArrowUp leaves it at -1. *)
Theorem handleKeyDown_empty_list p st :
  TimePicker.disabled p = false -> TimePicker.isOpen st = true ->
  TimePicker.filteredOptions p st = [] ->
  TimePicker.highlightedIndex st = -1 ->
  let st1 := fst (TimePicker.handleKeyDown p "ArrowDown" st) in
  TimePicker.highlightedIndex st1 = 0 /\
  snd (TimePicker.handleKeyDown p "Enter" st1) =
    [TimePicker.preventDefault; TimePicker.onChange None; TimePicker.focus] /\
  TimePicker.highlightedIndex
    (fst (TimePicker.handleKeyDown p "ArrowUp" st)) = -1.
Proof.
  intros Hd Ho He Hi. destruct st as [o hi inter]. cbn in Ho, Hi. subst o hi.
  unfold TimePicker.handleKeyDown. rewrite Hd, He.
  cbn -[TimePicker.filteredOptions].
  rewrite (filteredOptions_same p
             {| TimePicker.isOpen := true; TimePicker.highlightedIndex := -1;
                TimePicker.hasInteracted := inter |}) by reflexivity.
  rewrite He. cbn. auto.
Qed.

Lemma handleKeyDown_empty_list_witness :
  snd (TimePicker.handleKeyDown
         {| TimePicker.value := "noon"; TimePicker.minTime := "9:00am";
            TimePicker.maxTime := "10:00am"; TimePicker.interval := 30;
            TimePicker.error := false; TimePicker.disabled := false |}
         "Enter"
         (fst (TimePicker.handleKeyDown
                 {| TimePicker.value := "noon";
                    TimePicker.minTime := "9:00am";
                    TimePicker.maxTime := "10:00am";
                    TimePicker.interval := 30;
                    TimePicker.error := false;
                    TimePicker.disabled := false |}
                 "ArrowDown"
                 {| TimePicker.isOpen := true;
                    TimePicker.highlightedIndex := -1;
                    TimePicker.hasInteracted := true |}))) =
  [TimePicker.preventDefault; TimePicker.onChange None; TimePicker.focus].
Proof.
  apply (handleKeyDown_empty_list
           {| TimePicker.value := "noon"; TimePicker.minTime := "9:00am";
              TimePicker.maxTime := "10:00am"; TimePicker.interval := 30;
              TimePicker.error := false; TimePicker.disabled := false |}
           {| TimePicker.isOpen := true; TimePicker.highlightedIndex := -1;
              TimePicker.hasInteracted := true |});
    reflexivity.
Defined.

(** X24.  [formatTime] does not check its argument, and the round trip
    through the display string holds of the times of the day only: parsing
    a formatted value gives the value back exactly when its hour is in
    0..23 and its minute in 0..59. *)
Theorem parse_format_iff v :
  parseTime (formatTime v) = Some v <->
  0 <= hours v <= 23 /\ 0 <= minutes v <= 59.
Proof.
  split.
  - apply parseTime_range.
  - intros [Hh Hm]. now apply parse_format.
Qed.

Lemma parse_format_iff_witness :
  parseTime (formatTime {| hours := 23; minutes := 59 |}) =
  Some {| hours := 23; minutes := 59 |}.
Proof.
  apply (proj2 (parse_format_iff {| hours := 23; minutes := 59 |})).
  cbn. lia.
Defined.
